(** * nextcloud-vue: the viewport-mode mixin, NcColorPicker and NcDialog

  A shallow embedding of the script parts of
  - the [isMobile] mixin (module-level observable state and its resize
    listener),
  - [NcColorPicker] (methods, the [contrastColor] computed property and
    the palette validator),
  - [NcDialog] (the [isNavigationCollapsed] computed property),
  followed by the properties checked against them. *)

From Stdlib Require Import ZArith QArith Floats Uint63 Bool List String Ascii Lia.
Import ListNotations.

Set Warnings "-inexact-float,-register-all".
Local Open Scope string_scope.
Local Open Scope list_scope.
Local Open Scope Z_scope.

(* ================================================================= *)
(** ** JavaScript values, as far as the three units use them

    Strings are byte strings (UTF-8 beyond ASCII).  Both regular
    expressions of the colour picker are anchored at both ends and accept
    ASCII characters only, so a string holding any other character is
    rejected in either reading. *)

Module JS.

Inductive error : Type :=
| TypeError (msg : string).

(** Outcome of evaluating an expression or a call. *)
Inductive completion (A : Type) : Type :=
| Normal (a : A)
| Throw (e : error).
Arguments Normal {A} a.
Arguments Throw {A} e.

Inductive value : Type :=
| Undefined
| Null
| Bool (b : bool)
| Number (n : float)
| Str (s : string)
| Object (fields : list (string * value)).

(** The host's [Number::toString]; the components never format a number
    themselves, the conversion only happens when a number is handed to a
    regular expression. *)
Class Host : Type := { NumberToString : float -> string }.

Definition typeof (v : value) : string :=
  match v with
  | Undefined => "undefined"
  | Null => "object"
  | Bool _ => "boolean"
  | Number _ => "number"
  | Str _ => "string"
  | Object _ => "object"
  end.

Definition ToString `{Host} (v : value) : string :=
  match v with
  | Undefined => "undefined"
  | Null => "null"
  | Bool true => "true"
  | Bool false => "false"
  | Number n => NumberToString n
  | Str s => s
  | Object _ => "[object Object]"
  end.

Definition ToBoolean (v : value) : bool :=
  match v with
  | Undefined | Null => false
  | Bool b => b
  | Number n => negb (PrimFloat.eqb n 0%float || negb (PrimFloat.eqb n n))
  | Str s => negb (s =? "")%string
  | Object _ => true
  end.

Fixpoint own_property (k : string) (fields : list (string * value)) : value :=
  match fields with
  | [] => Undefined
  | (k', v) :: rest => if (k =? k')%string then v else own_property k rest
  end.

(** Property read [v.k].  Reading from [undefined] or [null] throws;
    primitives have no own data properties under the names used here
    ([hex], [color]), so the read yields [undefined]. *)
Definition Get (v : value) (k : string) : completion value :=
  match v with
  | Undefined => Throw (TypeError "Cannot read properties of undefined")
  | Null => Throw (TypeError "Cannot read properties of null")
  | Object fields => Normal (own_property k fields)
  | Bool _ | Number _ | Str _ => Normal Undefined
  end.

(** An integral JS number. Exact for [0 <= z < 2^53]. *)
Definition of_Z (z : Z) : float := PrimFloat.of_uint63 (Uint63.of_Z z).

End JS.

(* ================================================================= *)
(** ** The viewport-mode mixin (module state + resize listener) *)

Module Viewport.

(** What the host page provides: the measured content width
    [document.documentElement.clientWidth] (a CSSOM [long]) and the
    console. *)
Record host : Type := {
  clientWidth : Z;
  console : list (string * option bool)
}.

Definition console_log (line : string * option bool) (h : host) : host :=
  {| clientWidth := clientWidth h; console := console h ++ [line] |}.

(** [const _isMobile = () => { console.log(...); return clientWidth < 768 }] *)
Definition _isMobile (h : host) : bool * host :=
  let h' := console_log ("_isMobile", Some (negb (negb (clientWidth h <? 768)))) h in
  (clientWidth h' <? 768, h').

(** [Vue.observable({ isMobile: ... })] *)
Record state : Type := { isMobile : bool }.

Inductive listener : Type := OnResize.

(** The page once the module has been evaluated. *)
Record page : Type := {
  env : host;
  st : state;
  resize_listeners : list listener
}.

(** [Vue.set(state, 'isMobile', v)] *)
Definition Vue_set_isMobile (s : state) (v : bool) : state :=
  {| isMobile := v |}.

(** [const _onResize = () => { console.log('onResize'); Vue.set(state, 'isMobile', _isMobile()) }] *)
Definition _onResize (p : page) : page :=
  let h1 := console_log ("onResize", None) (env p) in
  let (m, h2) := _isMobile h1 in
  {| env := h2; st := Vue_set_isMobile (st p) m; resize_listeners := resize_listeners p |}.

(** Evaluation of the module body: the state is created from one call of
    [_isMobile], then the listener is registered. *)
Definition load (h : host) : page :=
  let (m, h1) := _isMobile h in
  {| env := h1; st := {| isMobile := m |}; resize_listeners := [OnResize] |}.

(** The exported mixin: [data() { return { isMobile: state.isMobile } }] *)
Definition data (p : page) : bool := isMobile (st p).

Definition run_listener (l : listener) (p : page) : page :=
  match l with OnResize => _onResize p end.

(** [window.dispatchEvent(new Event('resize'))]: every registered
    listener runs to completion, in registration order. *)
Definition dispatch_resize (p : page) : page :=
  fold_left (fun q l => run_listener l q) (resize_listeners p) p.

Definition set_width (w : Z) (p : page) : page :=
  {| env := {| clientWidth := w; console := console (env p) |};
     st := st p; resize_listeners := resize_listeners p |}.

(** What can happen to a loaded page. *)
Inductive event : Type :=
| Resize (w : Z)       (* the viewport becomes [w] wide and 'resize' is dispatched *)
| Reflow (w : Z)       (* the content width changes, no event is delivered *)
| Create.              (* a component using the mixin is instantiated: [data()] *)

Definition step (p : page) (e : event) : page :=
  match e with
  | Resize w => dispatch_resize (set_width w p)
  | Reflow w => set_width w p
  | Create => let _ := data p in p
  end.

Definition run (p : page) (es : list event) : page := fold_left step es p.

(** The width seen by the most recent call of [_isMobile]: the one at
    load time, then the one of each delivered resize. *)
Fixpoint last_measured (w0 : Z) (es : list event) : Z :=
  match es with
  | [] => w0
  | Resize w :: rest => last_measured w rest
  | _ :: rest => last_measured w0 rest
  end.


(** Number of delivered resizes in a history. *)
Fixpoint resizes (es : list event) : nat :=
  match es with
  | [] => O
  | Resize _ :: rest => S (resizes rest)
  | _ :: rest => resizes rest
  end.

(** What a history adds to the console: the two lines of [_onResize] for
    each delivered resize, in order. *)
Fixpoint resize_lines (es : list event) : list (string * option bool) :=
  match es with
  | [] => []
  | Resize w :: rest =>
      ("onResize", None) :: ("_isMobile", Some (w <? 768)) :: resize_lines rest
  | _ :: rest => resize_lines rest
  end.

End Viewport.

(* ================================================================= *)
(** ** Regular expressions: the fragment the two literals are written in *)

Module RegExp.

Inductive regex : Type :=
| Class (p : ascii -> bool)        (* one character out of a class / a literal *)
| Cat (r1 r2 : regex)              (* r1 r2 *)
| Alt (r1 r2 : regex)              (* r1|r2, left alternative first *)
| Opt (r : regex)                  (* r?, greedy *)
| Times (n : nat) (r : regex)      (* r{n} *)
| Group (r : regex)                (* ( r ), capturing *)
| Eol.                             (* $ without the m flag *)

(** The part of [s] consumed when [rest] is what is left of it. *)
Definition consumed (s rest : string) : string :=
  substring 0 (String.length s - String.length rest) s.

(** Backtracking matcher in continuation-passing style: [k] receives the
    rest of the input and the captures closed so far.  Captures are
    recorded when their group closes, which is the numbering of the source
    for patterns whose groups are not nested. *)
Fixpoint matcher (r : regex) (s : string) (caps : list string)
    (k : string -> list string -> option (list string)) : option (list string) :=
  match r with
  | Class p =>
      match s with
      | String c rest => if p c then k rest caps else None
      | EmptyString => None
      end
  | Cat r1 r2 => matcher r1 s caps (fun s1 caps1 => matcher r2 s1 caps1 k)
  | Alt r1 r2 =>
      match matcher r1 s caps k with
      | Some res => Some res
      | None => matcher r2 s caps k
      end
  | Opt r1 =>
      match matcher r1 s caps k with
      | Some res => Some res
      | None => k s caps
      end
  | Times n r1 =>
      (fix rep (n : nat) (s : string) (caps : list string) {struct n} :=
         match n with
         | O => k s caps
         | S n' => matcher r1 s caps (fun s1 caps1 => rep n' s1 caps1)
         end) n s caps
  | Group r1 => matcher r1 s caps (fun s1 caps1 => k s1 (caps1 ++ [consumed s s1])%list)
  | Eol =>
      match s with
      | EmptyString => k s caps
      | String _ _ => None
      end
  end.

(** [/^ r/.exec(s)]: the pattern is tried at the start of the input only
    (both literals of the component begin with [^]); the result is the list
    of captures [result[1]], [result[2]], ... or [null]. *)
Definition exec (r : regex) (s : string) : option (list string) :=
  matcher r s [] (fun _ caps => Some caps).

(** [/^ r/.test(s)] *)
Definition test (r : regex) (s : string) : bool :=
  match exec r s with Some _ => true | None => false end.

Definition code (c : ascii) : N := N_of_ascii c.

Definition lit (c : ascii) : regex := Class (Ascii.eqb c).

(** [\d] *)
Definition digit (c : ascii) : bool := ((48 <=? code c) && (code c <=? 57))%N.

(** [a-f] under the [i] flag: both cases. *)
Definition a_f_i (c : ascii) : bool :=
  (((97 <=? code c) && (code c <=? 102)) || ((65 <=? code c) && (code c <=? 70)))%N.

End RegExp.

(* ================================================================= *)
(** ** NcColorPicker *)

Module NcColorPicker.
Import JS RegExp.

(** [const HEX_REGEX = /^#([a-f0-9]{3}|[a-f0-9]{6})$/i] *)
Definition HEX_REGEX : regex :=
  Cat (lit "#")
      (Cat (Group (Alt (Times 3 (Class (fun c => a_f_i c || digit c)))
                       (Times 6 (Class (fun c => a_f_i c || digit c)))))
           Eol).

(** [/^#?([a-f\d]{2})([a-f\d]{2})([a-f\d]{2})$/i], the literal inside
    [hexToRGB]. *)
Definition RGB_REGEX : regex :=
  Cat (Opt (lit "#"))
      (Cat (Group (Times 2 (Class (fun c => a_f_i c || digit c))))
      (Cat (Group (Times 2 (Class (fun c => a_f_i c || digit c))))
      (Cat (Group (Times 2 (Class (fun c => a_f_i c || digit c))))
           Eol))).

(** Value of a digit in radix 16. *)
Definition digit16 (c : ascii) : option Z :=
  if digit c then Some (Z.of_N (code c) - 48)
  else if ((97 <=? code c) && (code c <=? 102))%N then Some (Z.of_N (code c) - 87)
  else if ((65 <=? code c) && (code c <=? 70))%N then Some (Z.of_N (code c) - 55)
  else None.

(** The longest prefix of radix-16 digits, read as a number. *)
Fixpoint digits16 (s : string) (acc : Z) : Z :=
  match s with
  | EmptyString => acc
  | String c rest =>
      match digit16 c with
      | Some d => digits16 rest (16 * acc + d)
      | None => acc
      end
  end.

(** [parseInt(s, 16)] for an [s] without leading white space, sign or
    [0x] prefix and with fewer than 14 digits, which is all a capture of
    [RGB_REGEX] can be: [NaN] when [s] does not start with a digit, else
    the value of its digit prefix. *)
Definition parseInt16 (s : string) : float :=
  match s with
  | EmptyString => nan
  | String c _ =>
      match digit16 c with
      | Some _ => JS.of_Z (digits16 s 0)
      | None => nan
      end
  end.

(** [result[i]] for [i >= 1], converted to a string as [parseInt] does. *)
Definition capture (result : list string) (i : nat) : string :=
  nth (i - 1) result "undefined".

Section Methods.
Context `{Host}.

(** [hexToRGB(hex)]: [null], or the array of the three channels. *)
Definition hexToRGB (hex : value) : option (float * float * float) :=
  match exec RGB_REGEX (ToString hex) with
  | Some result =>
      Some (parseInt16 (capture result 1), parseInt16 (capture result 2),
            parseInt16 (capture result 3))
  | None => None
  end.

(** [calculateLuma(color)]: [const [red, green, blue] = this.hexToRGB(color)]
    throws when [hexToRGB] returned [null]. *)
Definition calculateLuma (color : value) : completion float :=
  match hexToRGB color with
  | Some (red, green, blue) =>
      Normal ((0.2126 * red + 0.7152 * green + 0.0722 * blue) / 255)%float
  | None => Throw (TypeError "null is not iterable")
  end.

(** The component instance: the props and data the script reads or
    writes, and the events it has emitted so far, oldest first. *)
Record picker : Type := {
  value : JS.value;
  advancedFields : bool;
  paletteOnly : bool;
  palette : list JS.value;
  currentColor : JS.value;
  advanced : bool;
  emitted : list (string * list JS.value)
}.

(** [data()]; the two constant aria labels are left out. *)
Definition create (value : JS.value) (advancedFields paletteOnly : bool)
    (palette : list JS.value) : picker :=
  {| value := value; advancedFields := advancedFields; paletteOnly := paletteOnly;
     palette := palette; currentColor := value; advanced := false; emitted := [] |}.

(** Methods run against the instance: they may throw, and what they wrote
    before throwing stays written. *)
Definition method (A : Type) : Type := picker -> completion A * picker.

Definition ret {A : Type} (a : A) : method A := fun this => (Normal a, this).

Definition bind {A B : Type} (m : method A) (f : A -> method B) : method B :=
  fun this =>
    match m this with
    | (Normal a, this') => f a this'
    | (Throw e, this') => (Throw e, this')
    end.

Definition lift {A : Type} (c : completion A) : method A := fun this => (c, this).

Definition read {A : Type} (field : picker -> A) : method A :=
  fun this => (Normal (field this), this).

Definition set_currentColor (v : JS.value) : method unit :=
  fun this =>
    (Normal tt,
     {| value := value this; advancedFields := advancedFields this;
        paletteOnly := paletteOnly this; palette := palette this;
        currentColor := v; advanced := advanced this; emitted := emitted this |}).

Definition set_advanced (b : bool) : method unit :=
  fun this =>
    (Normal tt,
     {| value := value this; advancedFields := advancedFields this;
        paletteOnly := paletteOnly this; palette := palette this;
        currentColor := currentColor this; advanced := b; emitted := emitted this |}).

(** [this.$emit(name, ...args)] *)
Definition emit (name : string) (args : list JS.value) : method unit :=
  fun this =>
    (Normal tt,
     {| value := value this; advancedFields := advancedFields this;
        paletteOnly := paletteOnly this; palette := palette this;
        currentColor := currentColor this; advanced := advanced this;
        emitted := (emitted this ++ [(name, args)])%list |}).

Notation "x <- m ;; k" := (bind m (fun x => k))
  (at level 61, m at next level, right associativity).
Notation "m ;;; k" := (bind m (fun _ => k))
  (at level 61, right associativity).

(** [contrastColor()] (computed) *)
Definition contrastColor (this : picker) : completion string :=
  let black := "#000000" in
  let white := "#FFFFFF" in
  match calculateLuma (currentColor this) with
  | Normal luma => Normal (if (0.5 <? luma)%float then black else white)
  | Throw e => Throw e
  end.

(** [watch: { value(color) { this.currentColor = color } }]; the prop
    itself is written by the parent. *)
Definition watch_value (color : JS.value) : method unit :=
  set_currentColor color.

(** [handleClose()] *)
Definition handleClose : method unit :=
  emit "close" [] ;;;
  emit "update:open" [Bool false].

(** [handleConfirm()] *)
Definition handleConfirm : method unit :=
  color <- read currentColor ;;
  emit "submit" [color] ;;;
  handleClose ;;;
  set_advanced false.

(** [handleBack()] *)
Definition handleBack : method unit := set_advanced false.

(** [handleMoreSettings()] *)
Definition handleMoreSettings : method unit := set_advanced true.

(** [pickColor(color)] *)
Definition pickColor (color : JS.value) : method unit :=
  color <- (if negb (typeof color =? "string")%string
            then current <- read currentColor ;; lift (Get current "hex")
            else ret color) ;;
  set_currentColor color ;;;
  emit "update:value" [color] ;;;
  emit "input" [color].

(** One item of the [palette] validator:
    [(typeof item === 'string' && HEX_REGEX.test(item))
     || (typeof item === 'object' && item.color && HEX_REGEX.test(item.color))] *)
Definition valid_item (item : JS.value) : completion bool :=
  if (typeof item =? "string")%string && test HEX_REGEX (ToString item) then Normal true
  else if (typeof item =? "object")%string then
    match Get item "color" with
    | Normal color => Normal (ToBoolean color && test HEX_REGEX (ToString color))
    | Throw e => Throw e
    end
  else Normal false.

(** [validator: (palette) => palette.every(...)] *)
Fixpoint validator (palette : list JS.value) : completion bool :=
  match palette with
  | [] => Normal true
  | item :: rest =>
      match valid_item item with
      | Normal true => validator rest
      | Normal false => Normal false
      | Throw e => Throw e
      end
  end.

(** The translation function [t] of [l10n.js], applied to a text and its
    placeholder values. *)
Class L10n : Type := { t : string -> list (string * JS.value) -> string }.

Context `{L10n}.

(** An element of [normalizedPalette]: [{ color, name }]. *)
Record palette_entry : Type := { entry_color : JS.value; entry_name : JS.value }.

(** The callback of [normalizedPalette]:
    [color: typeof item === 'object' ? item.color : item],
    [name: typeof item === 'object' && item.name ? item.name
           : t('A color with a HEX value {hex}', { hex: item.color })]. *)
Definition normalize_item (item : JS.value) : completion palette_entry :=
  match (if (typeof item =? "object")%string then Get item "color" else Normal item) with
  | Throw e => Throw e
  | Normal color =>
      let translated :=
        match Get item "color" with
        | Normal hex => Normal (Str (t "A color with a HEX value {hex}" [("hex", hex)]))
        | Throw e => Throw e
        end in
      let name :=
        if (typeof item =? "object")%string then
          match Get item "name" with
          | Normal n => if ToBoolean n then Get item "name" else translated
          | Throw e => Throw e
          end
        else translated in
      match name with
      | Normal n => Normal {| entry_color := color; entry_name := n |}
      | Throw e => Throw e
      end
  end.

(** [this.palette.map(...)]: the first throwing item ends the map. *)
Fixpoint normalize (palette : list JS.value) : completion (list palette_entry) :=
  match palette with
  | [] => Normal []
  | item :: rest =>
      match normalize_item item with
      | Throw e => Throw e
      | Normal entry =>
          match normalize rest with
          | Normal entries => Normal (entry :: entries)
          | Throw e => Throw e
          end
      end
  end.

(** [normalizedPalette()] (computed) *)
Definition normalizedPalette (this : picker) : completion (list palette_entry) :=
  normalize (palette this).

(** [<Chrome v-model="currentColor" @input="pickColor" />]: on 'input' the
    [v-model] callback stores the payload in [currentColor], then
    [pickColor] runs with the same payload. *)
Definition chrome_input (color : JS.value) : method unit :=
  set_currentColor color ;;;
  pickColor color.

(** The parent passes a new [value]. *)
Definition set_value (v : JS.value) : method unit :=
  fun this =>
    (Normal tt,
     {| value := v; advancedFields := advancedFields this;
        paletteOnly := paletteOnly this; palette := palette this;
        currentColor := currentColor this; advanced := advanced this;
        emitted := emitted this |}).

(** What the template wires to the methods. *)
Inductive action : Type :=
| ClickColor (i : nat)             (* click on circle [i]: [pickColor(color)] *)
| ChromeInput (color : JS.value)   (* 'input' of the Chrome picker *)
| ClickBack                        (* [@click="handleBack"] *)
| ClickMore                        (* [@click="handleMoreSettings"] *)
| ClickChoose                      (* [@click="handleConfirm"] *)
| ApplyHide                        (* [@apply-hide="handleClose"] of the popover *)
| ValueProp (color : JS.value).    (* a new [value] prop: the watcher runs *)

Definition handler (a : action) : method unit :=
  match a with
  | ClickColor i =>
      fun this =>
        match normalizedPalette this with
        | Normal entries =>
            match nth_error entries i with
            | Some entry => pickColor (entry_color entry) this
            | None => (Normal tt, this)
            end
        | Throw e => (Throw e, this)
        end
  | ChromeInput color => chrome_input color
  | ClickBack => handleBack
  | ClickMore => handleMoreSettings
  | ClickChoose => handleConfirm
  | ApplyHide => handleClose
  | ValueProp color => set_value color ;;; watch_value color
  end.

(** The instance after a handler ran; an exception ends the handler and
    leaves the instance as the handler had it by then. *)
Definition perform (this : picker) (a : action) : picker := snd (handler a this).

(** What the last render that got through left on the page: the colours
    of the circles, each bound to [pickColor(color)], and whether the
    Chrome picker and the three navigation buttons are there. *)
Record view : Type := {
  circles : list JS.value;
  chrome : bool;
  back : bool;
  more : bool;
  choose : bool
}.

(** Nothing on the page. *)
Definition blank : view :=
  {| circles := []; chrome := false; back := false; more := false; choose := false |}.

(** The controls the template renders for an instance: the circles of
    [normalizedPalette] under [v-if="!advanced"], the Chrome picker under
    [v-if="advanced"], the navigation under [v-if="!paletteOnly"] with
    back and choose under [v-if="advanced"] and more under
    [v-if="!advanced"].  There is no view when [normalizedPalette]
    throws. *)
Definition template (this : picker) : option view :=
  if advanced this then
    Some {| circles := []; chrome := true; back := negb (paletteOnly this);
            more := false; choose := negb (paletteOnly this) |}
  else
    match normalizedPalette this with
    | Normal entries =>
        Some {| circles := map entry_color entries; chrome := false; back := false;
                more := negb (paletteOnly this); choose := false |}
    | Throw _ => None
    end.

(** The page after the component was asked to render again: the view of
    the template, or, when the render threw (in [normalizedPalette], or in
    [contrastColor] for the check mark of the current colour), the view
    that was there before, with its controls still bound. *)
Definition rerender (this : picker) (old new : view) : Prop :=
  new = old \/ template this = Some new.

(** Whether a control for the action is on the page; the popover's hide
    and a new [value] from the parent need none.  Circles are clicked
    with the colour they were rendered with, see [ui_circle]. *)
Definition present (v : view) (a : action) : bool :=
  match a with
  | ClickColor _ => false
  | ChromeInput _ => chrome v
  | ClickBack => back v
  | ClickMore => more v
  | ClickChoose => choose v
  | ApplyHide | ValueProp _ => true
  end.

(** One interaction: a handler runs for a control that is on the page,
    then the component renders again. *)
Inductive ui : picker * view -> picker * view -> Prop :=
| ui_circle this v color v' :
    In color (circles v) ->
    rerender (snd (pickColor color this)) v v' ->
    ui (this, v) (snd (pickColor color this), v')
| ui_control this v a v' :
    present v a = true ->
    rerender (perform this a) v v' ->
    ui (this, v) (perform this a, v').

(** The instances and pages that can be reached from a new instance: its
    first render, then any interactions. *)
Inductive shown (this0 : picker) : picker -> view -> Prop :=
| shown_first v : rerender this0 blank v -> shown this0 this0 v
| shown_next this v this' v' :
    shown this0 this v -> ui (this, v) (this', v') -> shown this0 this' v'.

End Methods.

End NcColorPicker.

(* ================================================================= *)
(** ** NcDialog *)

Module NcDialog.

(** The [width] ref handed out by [useElementSize(wrapper, { width: 900 })]:
    it starts at the initial size and takes every width the observer
    reports for the wrapper element. *)
Record element_size : Type := { dialogWidth : Q }.

Definition useElementSize (initial_width : Q) : element_size :=
  {| dialogWidth := initial_width |}.

Definition observe (sz : element_size) (measured : Q) : element_size :=
  {| dialogWidth := measured |}.

(** [setup()], as far as the navigation flag depends on it. *)
Definition setup : element_size := useElementSize 900.

(** [computed(() => dialogWidth.value < 876)] *)
Definition isNavigationCollapsed (sz : element_size) : bool :=
  match (dialogWidth sz ?= 876)%Q with
  | Lt => true
  | _ => false
  end.

(** The props and refs of [setup()] that the closing handlers and the
    navigation labels use, the [setTimeout] callbacks not yet run, and the
    events emitted so far, oldest first. *)
Record dialog : Type := {
  open : bool;
  navigationAriaLabel : string;
  navigationAriaLabelledby : string;
  navigationId : string;
  showModal : bool;
  pending : nat;
  emitted : list (string * list JS.value)
}.

(** [setup(props)]: [navigationId] is [ref(GenRandomId())], [showModal] is
    [ref(true)]. *)
Definition mount (open : bool) (navigationAriaLabel navigationAriaLabelledby : string)
    (randomId : string) : dialog :=
  {| open := open; navigationAriaLabel := navigationAriaLabel;
     navigationAriaLabelledby := navigationAriaLabelledby;
     navigationId := randomId; showModal := true; pending := 0; emitted := [] |}.

(** [computed(() => props.navigationAriaLabel || undefined)] *)
Definition navigationAriaLabelAttr (d : dialog) : option string :=
  if (navigationAriaLabel d =? "")%string then None else Some (navigationAriaLabel d).

(** [computed(() => { if (props.navigationAriaLabel) return undefined;
                     return props.navigationAriaLabelledby || navigationId.value })] *)
Definition navigationAriaLabelledbyAttr (d : dialog) : option string :=
  if negb (navigationAriaLabel d =? "")%string then None
  else Some (if (navigationAriaLabelledby d =? "")%string
             then navigationId d else navigationAriaLabelledby d).

Definition update (d : dialog) (show : bool) (timers : nat)
    (event : list (string * list JS.value)) : dialog :=
  {| open := open d; navigationAriaLabel := navigationAriaLabel d;
     navigationAriaLabelledby := navigationAriaLabelledby d;
     navigationId := navigationId d; showModal := show; pending := timers;
     emitted := emitted d ++ event |}.

(** [handleClosing]: [showModal.value = false; emit('closing')] *)
Definition handleClosing (d : dialog) : dialog :=
  update d false (pending d) [("closing", [])].

(** [handleClosed]: [showModal.value = true; emit('update:open', false)] *)
Definition handleClosed (d : dialog) : dialog :=
  update d true (pending d) [("update:open", [JS.Bool false])].

(** [handleButtonClose]:
    [handleClosing(); window.setTimeout(() => handleClosed(), 300)] *)
Definition handleButtonClose (d : dialog) : dialog :=
  let d1 := handleClosing d in
  update d1 (showModal d1) (S (pending d1)) [].

(** One of the pending timeouts expires. *)
Definition timeout (d : dialog) : dialog :=
  match pending d with
  | O => d
  | S n => handleClosed (update d (showModal d) n [])
  end.

(** [show: props.open && showModal.value] of [modalProps] *)
Definition show (d : dialog) : bool := open d && showModal d.

(** What drives the handlers: a click on a dialog button, an expiring
    timeout, and the modal's 'close' and 'update:show'. *)
Inductive occurrence : Type :=
| ButtonClick
| Timeout
| ModalClose
| ModalUpdateShow.

Definition react (d : dialog) (o : occurrence) : dialog :=
  match o with
  | ButtonClick => handleButtonClose d
  | Timeout => timeout d
  | ModalClose => handleClosed d
  | ModalUpdateShow => handleClosing d
  end.

End NcDialog.

(* ================================================================= *)
(** ** Reference notions the properties are stated against *)

Module Reference.
Import RegExp.

(** A hexadecimal digit in either case. *)
Definition hexdigit (c : ascii) : bool := a_f_i c || digit c.

Definition six_hexdigits (s : string) : bool :=
  match s with
  | String c1 (String c2 (String c3 (String c4 (String c5 (String c6 EmptyString))))) =>
      hexdigit c1 && hexdigit c2 && hexdigit c3 && hexdigit c4 && hexdigit c5 && hexdigit c6
  | _ => false
  end.

Definition three_hexdigits (s : string) : bool :=
  match s with
  | String c1 (String c2 (String c3 EmptyString)) =>
      hexdigit c1 && hexdigit c2 && hexdigit c3
  | _ => false
  end.

(** The digits of a colour string: what follows the optional [#]. *)
Definition body (s : string) : string :=
  match s with
  | String c rest => if ("#" =? c)%char then rest else s
  | EmptyString => s
  end.

(** A six-digit hex colour, in either case, with or without the [#]. *)
Definition well_formed6 (s : string) : bool := six_hexdigits (body s).

(** A three-digit hex colour, in either case, with or without the [#]. *)
Definition well_formed3 (s : string) : bool := three_hexdigits (body s).

(** The three captures of a six-digit colour. *)
Definition captures (s : string) : list string :=
  [substring 0 2 (body s); substring 2 2 (body s); substring 4 2 (body s)].

(** The value of a hexadecimal digit (0 for any other character). *)
Definition hexvalue (c : ascii) : Z :=
  let n := Z.of_N (code c) in
  if digit c then n - 48
  else if (97 <=? n) && (n <=? 102) then n - 87
  else if (65 <=? n) && (n <=? 70) then n - 55
  else 0.

(** The 8-bit channel written by the two digits at offset [i] of the body. *)
Definition channel (s : string) (i : nat) : Z :=
  match get i (body s), get (S i) (body s) with
  | Some hi, Some lo => 16 * hexvalue hi + hexvalue lo
  | _, _ => 0
  end.

(** Relative luminance over the reals:
    [(0.2126 R + 0.7152 G + 0.0722 B) / 255]. *)
Definition luma (r g b : Z) : Q :=
  ((2126 # 10000) * inject_Z r + (7152 # 10000) * inject_Z g
   + (722 # 10000) * inject_Z b) / 255.

(** The float expression of [calculateLuma] against the exact rule
    [luma > 1/2], cleared of denominators:
    [2 * (2126 r + 7152 g + 722 b) > 255 * 10000]. *)
Definition agree (r g b : int) : bool :=
  Bool.eqb
    (0.5 <? (0.2126 * of_uint63 r + 0.7152 * of_uint63 g + 0.0722 * of_uint63 b) / 255)%float
    (637500 <? 1063 * r + 3576 * g + 361 * b)%uint63.

Definition channels : list int :=
  map (fun n => Uint63.of_Z (Z.of_nat n)) (seq 0 256).

(** [f] holds on all triples drawn from [l]. *)
Definition all3 {A : Type} (f : A -> A -> A -> bool) (l : list A) : bool :=
  forallb (fun r => forallb (fun g => forallb (fun b => f r g b) l) l) l.

(** Lower-case form of a character. *)
Definition lower (c : ascii) : ascii :=
  if ((65 <=? code c) && (code c <=? 90))%N then ascii_of_N (code c + 32) else c.

Fixpoint lowercase (s : string) : string :=
  match s with
  | EmptyString => EmptyString
  | String c rest => String (lower c) (lowercase rest)
  end.

(** The normalized form of a colour: [#] and its digits in lower case. *)
Definition normalized (s : string) : string := String "#" (lowercase (body s)).

(** The lower-case digit of a value below 16. *)
Definition hexchar (d : Z) : ascii :=
  ascii_of_N (Z.to_N (if d <? 10 then d + 48 else d + 87)).

(** Modelled from the spec: the re-encoding of three channels as a hex
    colour, which the component itself does not contain; it writes [#]
    and two lower-case digits per channel. *)
Definition rgbToHex (r g b : Z) : string :=
  String "#"
    (String (hexchar (r / 16)) (String (hexchar (r mod 16))
    (String (hexchar (g / 16)) (String (hexchar (g mod 16))
    (String (hexchar (b / 16)) (String (hexchar (b mod 16)) EmptyString)))))).

(** A host for closed examples on strings; number formatting is never
    consulted there. *)
Definition any_host : JS.Host := {| JS.NumberToString := fun _ => "NaN" |}.

(** A colour as the palette wants it: [#] and three or six digits. *)
Definition hash_colour (s : string) : bool :=
  match s with
  | String c digits => ("#" =? c)%char && (three_hexdigits digits || six_hexdigits digits)
  | EmptyString => false
  end.


(** The float expression of [calculateLuma] stays within [0, 1). *)
Definition in_unit_range (r g b : int) : bool :=
  ((0 <=? (0.2126 * of_uint63 r + 0.7152 * of_uint63 g + 0.0722 * of_uint63 b) / 255)
   && ((0.2126 * of_uint63 r + 0.7152 * of_uint63 g + 0.0722 * of_uint63 b) / 255 <? 1))%float.

(** Event logs of the colour picker: each method emits one of three
    bursts. *)
Inductive bursts : list (string * list JS.value) -> Prop :=
| bursts_nil : bursts []
| bursts_pick c log :
    bursts log -> bursts (log ++ [("update:value", [c]); ("input", [c])])
| bursts_confirm c log :
    bursts log ->
    bursts (log ++ [("submit", [c]); ("close", []); ("update:open", [JS.Bool false])])
| bursts_close log :
    bursts log -> bursts (log ++ [("close", []); ("update:open", [JS.Bool false])]).

(** A translation for closed examples: the text as it is. *)
Definition any_l10n : NcColorPicker.L10n := {| NcColorPicker.t := fun text _ => text |}.

End Reference.

Ltac split_classes :=
  repeat match goal with
         | |- context [RegExp.a_f_i ?c || RegExp.digit ?c] =>
             destruct (RegExp.a_f_i c || RegExp.digit c) eqn:?
         end.

(* ================================================================= *)
(** * Properties *)

(** ** Viewport mode *)

Section ViewportFacts.
Import Viewport.

Lemma _isMobile_value (h : host) : fst (_isMobile h) = (clientWidth h <? 768).
Proof. reflexivity. Qed.

Lemma _isMobile_keeps_width (h : host) :
  clientWidth (snd (_isMobile h)) = clientWidth h.
Proof. reflexivity. Qed.

Lemma _onResize_flag (p : page) :
  isMobile (st (_onResize p)) = (clientWidth (env p) <? 768).
Proof. reflexivity. Qed.

Lemma _onResize_listeners (p : page) :
  resize_listeners (_onResize p) = resize_listeners p.
Proof. reflexivity. Qed.

Lemma _onResize_width (p : page) :
  clientWidth (env (_onResize p)) = clientWidth (env p).
Proof. reflexivity. Qed.

(** Dispatching to any list of listeners: the width is not touched, and as
    soon as one listener is registered the flag is the freshly measured one. *)
Lemma dispatch_fold (ls : list listener) : forall p,
  let q := fold_left (fun q l => run_listener l q) ls p in
  clientWidth (env q) = clientWidth (env p) /\
  resize_listeners q = resize_listeners p /\
  (ls <> [] -> st q = {| isMobile := clientWidth (env p) <? 768 |}) /\
  (ls = [] -> st q = st p).
Proof.
  induction ls as [|l ls IH]; intros p; cbn.
  - repeat split; intros; congruence.
  - destruct (IH (run_listener l p)) as (Hw & Hl & Hne & He).
    destruct l; cbn in *.
    repeat split; try assumption; try congruence.
    intros _. destruct ls as [|l' ls'].
    + rewrite He by reflexivity. reflexivity.
    + rewrite Hne by discriminate. reflexivity.
Qed.

Lemma dispatch_resize_st (p : page) :
  st (dispatch_resize p) =
  match resize_listeners p with
  | [] => st p
  | _ :: _ => {| isMobile := clientWidth (env p) <? 768 |}
  end.
Proof.
  unfold dispatch_resize.
  destruct (dispatch_fold (resize_listeners p) p) as (_ & _ & Hne & He).
  destruct (resize_listeners p); [apply He; reflexivity | apply Hne; discriminate].
Qed.

Lemma dispatch_resize_listeners (p : page) :
  resize_listeners (dispatch_resize p) = resize_listeners p.
Proof.
  unfold dispatch_resize.
  destruct (dispatch_fold (resize_listeners p) p) as (_ & Hl & _). exact Hl.
Qed.

Lemma step_listeners (p : page) (e : event) :
  resize_listeners (step p e) = resize_listeners p.
Proof.
  destruct e; cbn [step]; try reflexivity.
  rewrite dispatch_resize_listeners. reflexivity.
Qed.

Lemma step_resize_flag (p : page) (w : Z) :
  resize_listeners p <> [] ->
  isMobile (st (step p (Resize w))) = (w <? 768).
Proof.
  intros Hne. cbn [step]. rewrite dispatch_resize_st. cbn.
  destruct (resize_listeners p); [congruence | reflexivity].
Qed.

Lemma run_tracks (es : list event) : forall (p : page) (w0 : Z),
  resize_listeners p <> [] ->
  isMobile (st p) = (w0 <? 768) ->
  isMobile (st (run p es)) = (last_measured w0 es <? 768).
Proof.
  induction es as [|e es IH]; intros p w0 Hl Hf; cbn.
  - exact Hf.
  - assert (Hl' : resize_listeners (step p e) <> []) by (rewrite step_listeners; exact Hl).
    destruct e as [w|w|].
    + apply IH; [exact Hl'|]. apply step_resize_flag; exact Hl.
    + apply IH; [exact Hl'|exact Hf].
    + apply IH; [exact Hl'|exact Hf].
Qed.

(** C1. The viewport-mode query answers mobile exactly for widths below
    768: every measured width [w < 768] yields [true], every [w >= 768]
    yields [false]; in particular 767 is mobile and 768 is not. *)
Theorem isMobile_iff_below_768 :
  (forall h, fst (_isMobile h) = true <-> clientWidth h < 768) /\
  (forall h, fst (_isMobile h) = false <-> 768 <= clientWidth h) /\
  (forall c, fst (_isMobile {| clientWidth := 767; console := c |}) = true) /\
  (forall c, fst (_isMobile {| clientWidth := 768; console := c |}) = false).
Proof.
  repeat split; intros; try reflexivity; rewrite _isMobile_value in *.
  - now apply Z.ltb_lt.
  - now apply Z.ltb_lt.
  - now apply Z.ltb_ge.
  - now apply Z.ltb_ge.
Qed.

(** C2. The shared flag equals (measured width < 768) as of the last
    observation: module load stores the value for the width at load time,
    after every delivered resize it is the value for the width measured
    during that run, and neither a width change without an event nor the
    mixin's [data()] writes it. *)
Theorem isMobile_tracks_last_measurement :
  (forall h, isMobile (st (load h)) = (clientWidth h <? 768)) /\
  (forall h es,
     isMobile (st (run (load h) es)) = (last_measured (clientWidth h) es <? 768)) /\
  (forall h es w,
     isMobile (st (run (load h) (es ++ [Resize w]))) = (w <? 768)) /\
  (forall p, isMobile (st (_onResize p)) = (clientWidth (env p) <? 768)) /\
  (forall p w, st (step p (Reflow w)) = st p) /\
  (forall p, st (step p Create) = st p).
Proof.
  assert (Hrun : forall h es,
     isMobile (st (run (load h) es)) = (last_measured (clientWidth h) es <? 768)).
  { intros h es. apply run_tracks; [discriminate | reflexivity]. }
  repeat split; try reflexivity.
  - exact Hrun.
  - intros h es w. rewrite Hrun. f_equal.
    generalize (clientWidth h). induction es as [|e es IH]; intros w0; cbn.
    + reflexivity.
    + destruct e; apply IH.
Qed.

(** C6. The resize handler is idempotent in the measured width: a second
    run at the same width leaves the flag as the first run set it, for
    the handler itself and for two deliveries of the event.  The handler
    is a total function of the page: there is no failing outcome. *)
Theorem _onResize_idempotent :
  (forall p, st (_onResize (_onResize p)) = st (_onResize p)) /\
  (forall p w, st (run p [Resize w; Resize w]) = st (run p [Resize w])).
Proof.
  split.
  - intros p. reflexivity.
  - intros p w. cbn [run fold_left step].
    rewrite !dispatch_resize_st.
    cbn [set_width resize_listeners env clientWidth].
    rewrite dispatch_resize_listeners. cbn [set_width resize_listeners].
    destruct (resize_listeners p) eqn:E; [|reflexivity].
    cbn [set_width st]. rewrite dispatch_resize_st.
    cbn [set_width resize_listeners st]. rewrite E. reflexivity.
Qed.

End ViewportFacts.

(** ** NcDialog: the collapsed-navigation flag *)

Section DialogFacts.
Import NcDialog.

Lemma collapsed_iff (sz : element_size) :
  isNavigationCollapsed sz = true <-> (dialogWidth sz < 876)%Q.
Proof.
  unfold isNavigationCollapsed. rewrite Qlt_alt.
  destruct (dialogWidth sz ?= 876)%Q; split; intros; congruence.
Qed.

(** C8. [isNavigationCollapsed] is true exactly when the measured wrapper
    width is strictly below 876; with the initial width 900, before any
    measurement, it is false, and after a measurement it is decided by
    the measured width alone. *)
Theorem isNavigationCollapsed_iff_below_876 :
  (forall sz, isNavigationCollapsed sz = true <-> (dialogWidth sz < 876)%Q) /\
  dialogWidth setup = 900%Q /\
  isNavigationCollapsed setup = false /\
  (forall sz w, isNavigationCollapsed (observe sz w) = true <-> (w < 876)%Q).
Proof.
  split; [exact collapsed_iff|].
  split; [reflexivity|].
  split; [reflexivity|].
  intros sz w. apply (collapsed_iff (observe sz w)).
Qed.

End DialogFacts.

(** ** NcColorPicker: event-emitting methods *)

Section PickerMethodFacts.
Import JS NcColorPicker.

(** The instance after [currentColor] was set to [v] and the two update
    events were emitted. *)
Lemma pickColor_string (this : picker) (s : string) :
  pickColor (Str s) this =
  (Normal tt,
   {| value := value this; advancedFields := advancedFields this;
      paletteOnly := paletteOnly this; palette := palette this;
      currentColor := Str s; advanced := advanced this;
      emitted := emitted this ++ [("update:value", [Str s]); ("input", [Str s])] |}).
Proof.
  unfold pickColor, bind, ret, set_currentColor, emit. cbn.
  rewrite <- app_assoc. reflexivity.
Qed.

Lemma pickColor_other (this : picker) (c : JS.value) :
  (typeof c =? "string")%string = false ->
  pickColor c this =
  match Get (currentColor this) "hex" with
  | Normal v =>
      (Normal tt,
       {| value := value this; advancedFields := advancedFields this;
          paletteOnly := paletteOnly this; palette := palette this;
          currentColor := v; advanced := advanced this;
          emitted := emitted this ++ [("update:value", [v]); ("input", [v])] |})
  | Throw e => (Throw e, this)
  end.
Proof.
  intros Hc. unfold pickColor, bind, ret, read, lift, set_currentColor, emit.
  rewrite Hc. cbn.
  destruct (Get (currentColor this) "hex"); [|reflexivity].
  cbn. rewrite <- app_assoc. reflexivity.
Qed.

(** C9, as the code has it. For a string argument [c], [pickColor]
    stores [c] in [currentColor] and emits 'update:value' and 'input',
    both carrying [c].  For any other argument it reads the [hex]
    property of the current colour: when the current colour is neither
    [null] nor [undefined], that value is stored in [currentColor] and
    carried by both events; when it is [null] or [undefined], the read
    throws a [TypeError] and nothing is stored or emitted. *)
Theorem pickColor_sets_and_emits :
  (forall this s,
     let '(res, this') := pickColor (Str s) this in
     res = Normal tt /\
     currentColor this' = Str s /\
     emitted this' = emitted this ++ [("update:value", [Str s]); ("input", [Str s])]) /\
  (forall this c,
     (typeof c =? "string")%string = false ->
     currentColor this <> Null -> currentColor this <> Undefined ->
     exists v,
       Get (currentColor this) "hex" = Normal v /\
       let '(res, this') := pickColor c this in
       res = Normal tt /\
       currentColor this' = v /\
       emitted this' = emitted this ++ [("update:value", [v]); ("input", [v])]) /\
  (forall this c,
     (typeof c =? "string")%string = false ->
     currentColor this = Null \/ currentColor this = Undefined ->
     exists msg, pickColor c this = (Throw (TypeError msg), this)).
Proof.
  split; [|split].
  - intros this s. rewrite pickColor_string. cbn. auto.
  - intros this c Hc Hnull Hundef.
    assert (Hget : exists v, Get (currentColor this) "hex" = Normal v).
    { destruct (currentColor this); try congruence; eexists; reflexivity. }
    destruct Hget as [v Hget]. exists v. split; [exact Hget|].
    rewrite (pickColor_other this c Hc), Hget. cbn. auto.
  - intros this c Hc Hcur. rewrite (pickColor_other this c Hc).
    destruct Hcur as [-> | ->]; eexists; reflexivity.
Qed.

Lemma pickColor_sets_and_emits_witness :
  let this := create (Object [("hex", Str "#0082c9")]) false false [] in
  exists v,
    Get (currentColor this) "hex" = Normal v /\
    let '(res, this') := pickColor (Object [("hex", Str "#0082c9"); ("a", Number 1)]) this in
    res = Normal tt /\
    currentColor this' = v /\
    emitted this' = emitted this ++ [("update:value", [v]); ("input", [v])].
Proof.
  apply (proj1 (proj2 pickColor_sets_and_emits)
           (create (Object [("hex", Str "#0082c9")]) false false [])
           (Object [("hex", Str "#0082c9"); ("a", Number 1)]) eq_refl);
    discriminate.
Defined.

(** C9 as stated fails.  In the picker reached from a string colour by
    one call of [pickColor] with a number, the current colour is
    [undefined]; the next call with a non-string argument does not
    substitute any [hex] value: it throws, stores nothing and emits
    nothing. *)
Lemma pickColor_throws_without_colour :
  let this := snd (pickColor (Number 1) (create (Str "#0082c9") false false [])) in
  currentColor this = Undefined /\
  pickColor (Number 1) this =
    (Throw (TypeError "Cannot read properties of undefined"), this) /\
  ~ (exists v this',
       pickColor (Number 1) this = (Normal tt, this') /\
       currentColor this' = v /\
       emitted this' = emitted this ++ [("update:value", [v]); ("input", [v])]).
Proof.
  cbv zeta. split; [reflexivity|]. split; [reflexivity|].
  intros (v & this' & Hp & _). discriminate Hp.
Qed.

(** C10. [handleConfirm] emits 'submit' with the current colour, then
    'close', then 'update:open' with [false], and leaves the picker in the
    simple view: [advanced] is false afterwards. *)
Theorem handleConfirm_emits_and_resets : forall this,
  let '(res, this') := handleConfirm this in
  res = Normal tt /\
  emitted this' =
    emitted this ++
    [("submit", [currentColor this]); ("close", []); ("update:open", [Bool false])] /\
  advanced this' = false /\
  currentColor this' = currentColor this.
Proof.
  intros this.
  unfold handleConfirm, handleClose, bind, read, emit, set_advanced. cbn.
  rewrite <- !app_assoc. cbn. auto.
Qed.

End PickerMethodFacts.

(** ** NcColorPicker: decoding hex colours *)

Section DecodeFacts.
Import JS RegExp NcColorPicker Reference.
Context `{Host}.

Lemma hash_not_hexdigit (c : ascii) :
  (a_f_i c || digit c) = true -> Ascii.eqb "#" c = false.
Proof.
  intros Hc. destruct (Ascii.eqb "#" c) eqn:E; [|reflexivity].
  apply Ascii.eqb_eq in E. subst c. discriminate Hc.
Qed.

Lemma exec_RGB_six (c1 c2 c3 c4 c5 c6 : ascii) :
  hexdigit c1 = true -> hexdigit c2 = true -> hexdigit c3 = true ->
  hexdigit c4 = true -> hexdigit c5 = true -> hexdigit c6 = true ->
  let s := String c1 (String c2 (String c3 (String c4 (String c5 (String c6 ""))))) in
  exec RGB_REGEX s =
    Some [String c1 (String c2 ""); String c3 (String c4 ""); String c5 (String c6 "")] /\
  exec RGB_REGEX (String "#" s) =
    Some [String c1 (String c2 ""); String c3 (String c4 ""); String c5 (String c6 "")].
Proof.
  unfold hexdigit. intros H1 H2 H3 H4 H5 H6.
  cbn -[Ascii.eqb a_f_i digit]. unfold lit.
  rewrite (hash_not_hexdigit c1 H1), H1, H2, H3, H4, H5, H6. cbn. auto.
Qed.

(** [RGB_REGEX] accepts exactly the six-digit colours. *)
Lemma exec_RGB (s : string) :
  exec RGB_REGEX s = if well_formed6 s then Some (captures s) else None.
Proof.
  unfold well_formed6, captures, six_hexdigits, hexdigit.
  destruct s as [|c1 s]; [reflexivity|].
  unfold body.
  destruct (Ascii.eqb "#" c1) eqn:E1.
  - apply Ascii.eqb_eq in E1. subst c1.
    destruct s as [|c2 [|c3 [|c4 [|c5 [|c6 [|c7 [|c8 s]]]]]]];
      cbn -[Ascii.eqb a_f_i digit]; unfold lit;
      change (Ascii.eqb "#" "#") with true;
      change (a_f_i "#" || digit "#") with false; cbn -[Ascii.eqb a_f_i digit];
      split_classes; reflexivity.
  - destruct s as [|c2 [|c3 [|c4 [|c5 [|c6 [|c7 s]]]]]];
      cbn -[Ascii.eqb a_f_i digit]; unfold lit; rewrite ?E1;
      cbn -[Ascii.eqb a_f_i digit];
      split_classes; reflexivity.
Qed.

Lemma hexdigit_value (c : ascii) :
  hexdigit c = true -> digit16 c = Some (hexvalue c) /\ 0 <= hexvalue c < 16.
Proof.
  destruct c as [[] [] [] [] [] [] [] []]; intros Hc; try discriminate Hc;
    (split; [reflexivity | vm_compute; split; congruence]).
Qed.

Lemma parseInt16_pair (hi lo : ascii) :
  hexdigit hi = true -> hexdigit lo = true ->
  parseInt16 (String hi (String lo "")) = JS.of_Z (16 * hexvalue hi + hexvalue lo).
Proof.
  intros Hhi Hlo.
  destruct (hexdigit_value hi Hhi) as [Ehi _], (hexdigit_value lo Hlo) as [Elo _].
  unfold parseInt16. rewrite Ehi. cbn [digits16]. rewrite Ehi, Elo.
  f_equal.
Qed.

(** Six-digit colours decode to the channels their digit pairs write. *)
Lemma hexToRGB_six (s : string) :
  well_formed6 s = true ->
  hexToRGB (Str s) =
    Some (JS.of_Z (channel s 0), JS.of_Z (channel s 2), JS.of_Z (channel s 4)) /\
  0 <= channel s 0 < 256 /\ 0 <= channel s 2 < 256 /\ 0 <= channel s 4 < 256.
Proof.
  intros Hwf. unfold hexToRGB, ToString. rewrite exec_RGB, Hwf.
  unfold well_formed6, six_hexdigits in Hwf. unfold captures, channel.
  destruct (body s) as [|c1 [|c2 [|c3 [|c4 [|c5 [|c6 [|c7 t]]]]]]]; try discriminate Hwf.
  repeat (apply andb_prop in Hwf; destruct Hwf as [Hwf ?]).
  cbn [capture Nat.sub nth substring get].
  rewrite !parseInt16_pair by assumption.
  split; [reflexivity|].
  repeat match goal with
         | Hc : hexdigit ?c = true |- _ =>
             let Hv := fresh "Hv" in
             destruct (hexdigit_value c Hc) as [_ Hv]; clear Hc
         end.
  lia.
Qed.

(** Anything else decodes to [null]. *)
Lemma hexToRGB_other (s : string) :
  well_formed6 s = false -> hexToRGB (Str s) = None.
Proof.
  intros Hwf. unfold hexToRGB, ToString. rewrite exec_RGB, Hwf. reflexivity.
Qed.

Lemma three_not_six (s : string) : well_formed3 s = true -> well_formed6 s = false.
Proof.
  unfold well_formed3, well_formed6, three_hexdigits, six_hexdigits.
  destruct (body s) as [|c1 [|c2 [|c3 [|c4 t]]]]; intros Hw; try discriminate Hw.
  reflexivity.
Qed.

End DecodeFacts.

(** ** NcColorPicker: the contrast colour *)

Section LumaFacts.
Import JS RegExp NcColorPicker Reference.

Lemma all3_spec {A : Type} (f : A -> A -> A -> bool) (l : list A) :
  all3 f l = true ->
  forall r g b, In r l -> In g l -> In b l -> f r g b = true.
Proof.
  unfold all3. intros T r g b Hr Hg Hb.
  rewrite forallb_forall in T. specialize (T r Hr).
  rewrite forallb_forall in T. specialize (T g Hg).
  rewrite forallb_forall in T. exact (T b Hb).
Qed.

(** [agree] on all 2^24 colours. *)
Lemma agree_table : all3 agree channels = true.
Proof. vm_compute. reflexivity. Qed.

Lemma in_channels (z : Z) : 0 <= z < 256 -> In (Uint63.of_Z z) channels.
Proof.
  intros Hz. unfold channels. apply in_map_iff.
  exists (Z.to_nat z). split.
  - rewrite Z2Nat.id by lia. reflexivity.
  - apply in_seq. lia.
Qed.

Lemma agree_in_range (r g b : Z) :
  0 <= r < 256 -> 0 <= g < 256 -> 0 <= b < 256 ->
  agree (Uint63.of_Z r) (Uint63.of_Z g) (Uint63.of_Z b) = true.
Proof.
  intros Hr Hg Hb.
  exact (all3_spec agree channels agree_table _ _ _
           (in_channels r Hr) (in_channels g Hg) (in_channels b Hb)).
Qed.

Lemma weighted_sum_to_Z (r g b : Z) :
  0 <= r < 256 -> 0 <= g < 256 -> 0 <= b < 256 ->
  (637500 <? 1063 * Uint63.of_Z r + 3576 * Uint63.of_Z g + 361 * Uint63.of_Z b)%uint63
  = (637500 <? 1063 * r + 3576 * g + 361 * b)%Z.
Proof.
  intros Hr Hg Hb.
  apply Bool.eq_iff_eq_true. rewrite Uint63.ltb_spec, Z.ltb_lt.
  rewrite !Uint63.add_spec, !Uint63.mul_spec, !Uint63.of_Z_spec.
  change (to_Z 637500%uint63) with 637500%Z.
  change (to_Z 1063%uint63) with 1063%Z.
  change (to_Z 3576%uint63) with 3576%Z.
  change (to_Z 361%uint63) with 361%Z.
  change wB with 9223372036854775808%Z.
  rewrite (Z.mod_small r), (Z.mod_small g), (Z.mod_small b) by lia.
  rewrite (Z.mod_small (1063 * r)), (Z.mod_small (3576 * g)), (Z.mod_small (361 * b)) by lia.
  rewrite (Z.mod_small (1063 * r + 3576 * g)) by lia.
  rewrite (Z.mod_small (1063 * r + 3576 * g + 361 * b)) by lia.
  reflexivity.
Qed.

(** The exact rule [luma > 1/2], cleared of denominators. *)
Lemma luma_above_half (r g b : Z) :
  (1 # 2 < luma r g b)%Q <-> (637500 < 1063 * r + 3576 * g + 361 * b)%Z.
Proof.
  unfold luma, Qlt, Qdiv, Qmult, Qplus, inject_Z.
  cbn [Qinv Qnum Qden]. rewrite ?Pos2Z.inj_mul. lia.
Qed.

(** Rounding never changes the decision: on 8-bit channels the
    comparison [calculateLuma(...) > 0.5], carried out in binary64,
    agrees with the comparison of the exact luminance with 1/2. *)
Lemma float_luma_decision (r g b : Z) :
  0 <= r < 256 -> 0 <= g < 256 -> 0 <= b < 256 ->
  (0.5 <? (0.2126 * JS.of_Z r + 0.7152 * JS.of_Z g + 0.0722 * JS.of_Z b) / 255)%float
  = true <-> (1 # 2 < luma r g b)%Q.
Proof.
  intros Hr Hg Hb. rewrite luma_above_half, <- Z.ltb_lt.
  rewrite <- (weighted_sum_to_Z r g b Hr Hg Hb).
  pose proof (agree_in_range r g b Hr Hg Hb) as A. unfold agree in A.
  apply Bool.eqb_prop in A. unfold JS.of_Z. rewrite A. reflexivity.
Qed.

Section Contrast.
Context `{Host}.

Lemma calculateLuma_six (s : string) :
  well_formed6 s = true ->
  calculateLuma (Str s) =
    Normal ((0.2126 * JS.of_Z (channel s 0) + 0.7152 * JS.of_Z (channel s 2)
             + 0.0722 * JS.of_Z (channel s 4)) / 255)%float.
Proof.
  intros Hwf. unfold calculateLuma.
  destruct (hexToRGB_six s Hwf) as [-> _]. reflexivity.
Qed.

Lemma calculateLuma_other (s : string) :
  well_formed6 s = false ->
  calculateLuma (Str s) = Throw (TypeError "null is not iterable").
Proof.
  intros Hwf. unfold calculateLuma. rewrite (hexToRGB_other s Hwf). reflexivity.
Qed.

Lemma contrastColor_six (this : picker) (s : string) :
  currentColor this = Str s -> well_formed6 s = true ->
  contrastColor this =
    Normal (if Qlt_le_dec (1 # 2) (luma (channel s 0) (channel s 2) (channel s 4))
            then "#000000" else "#FFFFFF").
Proof.
  intros Hc Hwf. unfold contrastColor. rewrite Hc, (calculateLuma_six s Hwf).
  destruct (hexToRGB_six s Hwf) as (_ & Hr & Hg & Hb).
  pose proof (float_luma_decision _ _ _ Hr Hg Hb) as D.
  destruct Qlt_le_dec as [Hlt | Hle].
  - apply D in Hlt. rewrite Hlt. reflexivity.
  - destruct (_ <? _)%float; [|reflexivity].
    exfalso. apply (Qle_not_lt _ _ Hle). apply D. reflexivity.
Qed.

(** The luminance rule where the decoder succeeds. For a six-digit hex
    colour the contrast helper decodes the three 8-bit channels, computes
    [(0.2126 R + 0.7152 G + 0.0722 B) / 255] over them, and answers white
    when the luminance is at most 1/2 and black when it is above 1/2;
    [#FFFFFF] and [#FFED00] give black, [#000000] and [#0082C9] give
    white. *)
Theorem contrastColor_by_luma :
  (forall this s,
     currentColor this = Str s -> well_formed6 s = true ->
     let r := channel s 0 in
     let g := channel s 2 in
     let b := channel s 4 in
     (0 <= r < 256 /\ 0 <= g < 256 /\ 0 <= b < 256) /\
     calculateLuma (Str s) =
       Normal ((0.2126 * JS.of_Z r + 0.7152 * JS.of_Z g + 0.0722 * JS.of_Z b) / 255)%float /\
     ((luma r g b <= 1 # 2)%Q -> contrastColor this = Normal "#FFFFFF") /\
     ((1 # 2 < luma r g b)%Q -> contrastColor this = Normal "#000000")) /\
  (forall this, currentColor this = Str "#FFFFFF" -> contrastColor this = Normal "#000000") /\
  (forall this, currentColor this = Str "#000000" -> contrastColor this = Normal "#FFFFFF") /\
  (forall this, currentColor this = Str "#0082C9" -> contrastColor this = Normal "#FFFFFF") /\
  (forall this, currentColor this = Str "#FFED00" -> contrastColor this = Normal "#000000").
Proof.
  split.
  - intros this s Hc Hwf r g b.
    split; [exact (proj2 (hexToRGB_six s Hwf))|].
    split; [exact (calculateLuma_six s Hwf)|].
    rewrite (contrastColor_six this s Hc Hwf). fold r g b.
    split; intros Hl; destruct Qlt_le_dec as [Hlt | Hle]; try reflexivity.
    + exfalso. exact (Qle_not_lt _ _ Hl Hlt).
    + exfalso. exact (Qle_not_lt _ _ Hle Hl).
  - repeat split; intros this Hc; unfold contrastColor; rewrite Hc; reflexivity.
Qed.

(** C5 as the code has it. A string that is not a six-digit colour
    decodes to [null], and [calculateLuma] on it throws a [TypeError]
    (it destructures [null]) instead of returning a number. *)
Theorem calculateLuma_throws_on_malformed : forall s,
  well_formed6 s = false ->
  hexToRGB (Str s) = None /\
  calculateLuma (Str s) = Throw (TypeError "null is not iterable") /\
  (forall this, currentColor this = Str s ->
     contrastColor this = Throw (TypeError "null is not iterable")).
Proof.
  intros s Hwf. split; [exact (hexToRGB_other s Hwf)|].
  split; [exact (calculateLuma_other s Hwf)|].
  intros this Hc. unfold contrastColor. rewrite Hc, (calculateLuma_other s Hwf).
  reflexivity.
Qed.

(** Every three-digit colour is accepted by [HEX_REGEX], hence by the
    palette validator, and none is decoded. *)
Lemma three_digit_accepted_not_decoded (s : string) :
  well_formed3 s = true ->
  hexToRGB (Str s) = None /\
  (forall t, s = String "#" t -> test HEX_REGEX s = true /\ valid_item (Str s) = Normal true).
Proof.
  intros Hwf. split; [exact (hexToRGB_other s (three_not_six s Hwf))|].
  intros t ->. unfold well_formed3, body in Hwf.
  change (Ascii.eqb "#" "#") with true in Hwf. cbv iota in Hwf.
  unfold three_hexdigits, hexdigit in Hwf.
  destruct t as [|c1 [|c2 [|c3 [|c4 t]]]]; try discriminate Hwf.
  repeat (apply andb_prop in Hwf; destruct Hwf as [Hwf ?]).
  assert (Ht : test HEX_REGEX (String "#" (String c1 (String c2 (String c3 "")))) = true).
  { unfold test. cbn -[Ascii.eqb a_f_i digit]. unfold lit.
    change (Ascii.eqb "#" "#") with true. cbv iota.
    repeat match goal with Hc : (a_f_i ?c || digit ?c) = true |- _ => rewrite Hc; clear Hc end.
    reflexivity. }
  split; [exact Ht|].
  unfold valid_item. cbn [typeof ToString]. rewrite Ht. reflexivity.
Qed.

(** C4, at the failing input. [#FFF] is a hex colour for [HEX_REGEX] and
    passes the palette validator, yet [hexToRGB] answers [null] for it,
    with or without the [#]. *)
Theorem hexToRGB_three_digit_null :
  test HEX_REGEX "#FFF" = true /\
  validator [Str "#FFF"] = Normal true /\
  hexToRGB (Str "#FFF") = None /\
  hexToRGB (Str "fff") = None.
Proof. repeat split. Qed.

(** C3, at the failing input. With the three-digit colour [#FFF], which
    the palette validator admits, no luminance is computed and no contrast
    colour is returned: [calculateLuma] throws on the [null] it gets from
    the decoder. *)
Theorem contrastColor_three_digit_throws :
  validator [Str "#FFF"] = Normal true /\
  calculateLuma (Str "#FFF") = Throw (TypeError "null is not iterable") /\
  contrastColor (create (Str "#FFF") false false [Str "#FFF"]) =
    Throw (TypeError "null is not iterable").
Proof. repeat split. Qed.

(** C7, at the failing input. [#abc] decodes to [null]: there are no
    channels to encode again, whatever the encoder, and the normalized
    form [#aabbcc] is not reproduced. *)
Theorem roundtrip_three_digit_fails :
  hexToRGB (Str "#abc") = None /\
  (forall encode : float * float * float -> string,
     option_map encode (hexToRGB (Str "#abc")) <> Some "#aabbcc").
Proof. split; [reflexivity | intros encode; discriminate]. Qed.

Lemma hexchar_hexvalue (c : ascii) :
  hexdigit c = true -> hexchar (hexvalue c) = lower c.
Proof.
  destruct c as [[] [] [] [] [] [] [] []]; intros Hc; try discriminate Hc; reflexivity.
Qed.

Lemma rgbToHex_pair (hi lo : ascii) :
  hexdigit hi = true -> hexdigit lo = true ->
  let z := 16 * hexvalue hi + hexvalue lo in
  hexchar (z / 16) = lower hi /\ hexchar (z mod 16) = lower lo.
Proof.
  intros Hhi Hlo z.
  destruct (hexdigit_value hi Hhi) as [_ Bhi], (hexdigit_value lo Hlo) as [_ Blo].
  assert (Hq : z / 16 = hexvalue hi).
  { symmetry. apply (Z.div_unique z 16 (hexvalue hi) (hexvalue lo)); [lia | reflexivity]. }
  assert (Hm : z mod 16 = hexvalue lo).
  { symmetry. apply (Z.mod_unique z 16 (hexvalue hi) (hexvalue lo)); [lia | reflexivity]. }
  rewrite Hq, Hm. split; apply hexchar_hexvalue; assumption.
Qed.

(** The six-digit half of the round trip, against the encoder modelled
    from the spec: decoding and encoding again gives the normalized
    colour. *)
Lemma roundtrip_six (s : string) :
  well_formed6 s = true ->
  hexToRGB (Str s) =
    Some (JS.of_Z (channel s 0), JS.of_Z (channel s 2), JS.of_Z (channel s 4)) /\
  rgbToHex (channel s 0) (channel s 2) (channel s 4) = normalized s.
Proof.
  intros Hwf. split; [exact (proj1 (hexToRGB_six s Hwf))|].
  unfold well_formed6, six_hexdigits in Hwf. unfold rgbToHex, normalized, channel.
  destruct (body s) as [|c1 [|c2 [|c3 [|c4 [|c5 [|c6 [|c7 t]]]]]]]; try discriminate Hwf.
  repeat (apply andb_prop in Hwf; destruct Hwf as [Hwf ?]).
  cbn [get lowercase].
  destruct (rgbToHex_pair c1 c2) as [-> ->]; try assumption.
  destruct (rgbToHex_pair c3 c4) as [-> ->]; try assumption.
  destruct (rgbToHex_pair c5 c6) as [-> ->]; try assumption.
  reflexivity.
Qed.

End Contrast.

End LumaFacts.

(** ** Closed instances *)

Section Instances.
Import JS NcColorPicker Reference.

Lemma contrastColor_by_luma_examples :
  @contrastColor any_host (create (Str "#0082C9") false false []) = Normal "#FFFFFF" /\
  @contrastColor any_host (create (Str "ffed00") false false []) = Normal "#000000".
Proof.
  split.
  - apply (proj1 (@contrastColor_by_luma any_host)
             (create (Str "#0082C9") false false []) "#0082C9" eq_refl eq_refl).
    vm_compute. discriminate.
  - apply (proj1 (@contrastColor_by_luma any_host)
             (create (Str "ffed00") false false []) "ffed00" eq_refl eq_refl).
    vm_compute. reflexivity.
Defined.

Lemma calculateLuma_throws_on_malformed_witness :
  @hexToRGB any_host (Str "zzz") = None /\
  @calculateLuma any_host (Str "zzz") = Throw (TypeError "null is not iterable").
Proof.
  destruct (@calculateLuma_throws_on_malformed any_host "zzz" eq_refl) as (Hn & Ht & _).
  exact (conj Hn Ht).
Defined.

(** C5 as stated fails: on the malformed string [zzz] the decoder does
    answer [null], but [calculateLuma] does not return any value, NaN or
    other: it throws. *)
Lemma calculateLuma_not_silent :
  @hexToRGB any_host (Str "zzz") = None /\
  ~ (exists n : float, @calculateLuma any_host (Str "zzz") = Normal n).
Proof.
  split; [reflexivity|]. intros [n Hn]. discriminate Hn.
Qed.

End Instances.

(* ================================================================= *)
(** * Further properties of the three units *)

(** ** Viewport mode: the listener, the console and the test utility *)

Section ViewportMore.
Import Viewport.

Lemma dispatch_single (p : page) :
  resize_listeners p = [OnResize] -> dispatch_resize p = _onResize p.
Proof. intros Hl. unfold dispatch_resize. rewrite Hl. reflexivity. Qed.

Lemma run_app (p : page) (es1 es2 : list event) :
  run p (es1 ++ es2) = run (run p es1) es2.
Proof. unfold run. apply fold_left_app. Qed.

Lemma run_listeners (es : list event) : forall p,
  resize_listeners (run p es) = resize_listeners p.
Proof.
  induction es as [|e es IH]; intros p; cbn; [reflexivity|].
  fold (run (step p e) es). rewrite IH. apply step_listeners.
Qed.

Lemma run_console (es : list event) : forall p,
  resize_listeners p = [OnResize] ->
  List.length (console (env (run p es))) =
  (List.length (console (env p)) + 2 * resizes es)%nat.
Proof.
  induction es as [|e es IH]; intros p Hl; cbn [run fold_left resizes].
  - lia.
  - fold (run (step p e) es). rewrite IH by (rewrite step_listeners; exact Hl).
    destruct e as [w|w|]; cbn [step resizes]; try (cbn; lia).
    rewrite dispatch_single by exact Hl.
    cbn. rewrite !length_app. cbn. lia.
Qed.

Lemma run_console_lines (es : list event) : forall p,
  resize_listeners p = [OnResize] ->
  console (env (run p es)) = console (env p) ++ resize_lines es.
Proof.
  induction es as [|e es IH]; intros p Hl; cbn [run fold_left resize_lines].
  - rewrite app_nil_r. reflexivity.
  - fold (run (step p e) es). rewrite IH by (rewrite step_listeners; exact Hl).
    destruct e as [w|w|]; cbn [step]; try reflexivity.
    rewrite dispatch_single by exact Hl.
    cbn. rewrite Bool.negb_involutive, <- !app_assoc. reflexivity.
Qed.

Lemma resize_lines_length (es : list event) :
  List.length (resize_lines es) = (2 * resizes es)%nat.
Proof.
  induction es as [|e es IH]; cbn; [reflexivity|].
  destruct e; cbn; lia.
Qed.

(** X1. The module registers its resize listener once and nothing ever
    adds or removes one, so each delivered resize runs the handler exactly
    once: after loading and any history the console is what it was
    before loading, followed by the [_isMobile] line of loading and then,
    for each delivered resize in order, the 'onResize' line and the
    [_isMobile] line with the value for that width; nothing is removed
    or rewritten, and a width change without an event or a component
    creation logs nothing.  That makes one line from loading and two per
    delivered resize. *)
Theorem one_handler_run_per_resize : forall h es,
  resize_listeners (run (load h) es) = [OnResize] /\
  console (env (run (load h) es)) =
    console h ++ ("_isMobile", Some (clientWidth h <? 768)) :: resize_lines es /\
  List.length (resize_lines es) = (2 * resizes es)%nat /\
  List.length (console (env (run (load h) es))) =
  (List.length (console h) + 1 + 2 * resizes es)%nat.
Proof.
  intros h es. split; [|split; [|split]].
  - rewrite run_listeners. reflexivity.
  - rewrite run_console_lines by reflexivity. cbn.
    rewrite Bool.negb_involutive, <- app_assoc. reflexivity.
  - apply resize_lines_length.
  - rewrite run_console by reflexivity. cbn. rewrite length_app. cbn. lia.
Qed.

Lemma console_ends_with_flag (es : list event) : forall p,
  resize_listeners p = [OnResize] ->
  (exists earlier, console (env p) = earlier ++ [("_isMobile", Some (isMobile (st p)))]) ->
  exists earlier,
    console (env (run p es)) =
    earlier ++ [("_isMobile", Some (isMobile (st (run p es))))].
Proof.
  induction es as [|e es IH]; intros p Hl Hc; cbn [run fold_left].
  - exact Hc.
  - fold (run (step p e) es). apply IH; [rewrite step_listeners; exact Hl|].
    destruct e as [w|w|]; cbn [step].
    + rewrite dispatch_single by exact Hl.
      exists (console (env p) ++ [("onResize", None)]).
      cbn. rewrite Bool.negb_involutive. reflexivity.
    + exact Hc.
    + exact Hc.
Qed.

(** X2. What the console says is what the state holds: at any time after
    loading, the last console line is the [_isMobile] line of the most
    recent measurement and carries the current value of the shared flag. *)
Theorem console_reports_current_flag : forall h es,
  exists earlier,
    console (env (run (load h) es)) =
    earlier ++ [("_isMobile", Some (isMobile (st (run (load h) es))))].
Proof.
  intros h es. apply console_ends_with_flag; [reflexivity|].
  exists (console h). cbn. rewrite Bool.negb_involutive. reflexivity.
Qed.


End ViewportMore.

(** ** NcColorPicker: the two patterns, the validator and the palette *)

Section PickerMore.
Import JS RegExp NcColorPicker Reference.
Context `{Host} `{L10n}.

(** [HEX_REGEX] accepts exactly [#] followed by three or six digits. *)
Lemma test_HEX_REGEX (s : string) : test HEX_REGEX s = hash_colour s.
Proof.
  unfold test, hash_colour, three_hexdigits, six_hexdigits, hexdigit.
  destruct s as [|c1 s]; [reflexivity|].
  destruct (Ascii.eqb "#" c1) eqn:E1.
  - apply Ascii.eqb_eq in E1. subst c1.
    destruct s as [|c2 [|c3 [|c4 [|c5 [|c6 [|c7 [|c8 s]]]]]]];
      cbn -[Ascii.eqb a_f_i digit]; unfold lit;
      change (Ascii.eqb "#" "#") with true; cbn -[Ascii.eqb a_f_i digit];
      split_classes; reflexivity.
  - cbn -[Ascii.eqb a_f_i digit]. unfold lit. rewrite E1. reflexivity.
Qed.

Lemma well_formed6_hash (digits : string) :
  well_formed6 (String "#" digits) = six_hexdigits digits.
Proof. reflexivity. Qed.

Lemma six_hexdigits_no_hash (s : string) :
  six_hexdigits s = true -> well_formed6 s = true /\ hash_colour s = false.
Proof.
  intros Hs. unfold well_formed6, body, hash_colour.
  destruct s as [|c1 s]; [discriminate Hs|].
  assert (Hc : hexdigit c1 = true).
  { unfold six_hexdigits in Hs.
    destruct s as [|c2 [|c3 [|c4 [|c5 [|c6 [|c7 t0]]]]]]; try discriminate Hs.
    repeat (apply andb_prop in Hs; destruct Hs as [Hs ?]). exact Hs. }
  rewrite (hash_not_hexdigit c1 Hc). split; [exact Hs | reflexivity].
Qed.

(** X4. The palette pattern [HEX_REGEX] accepts exactly the strings made
    of [#] and three or six hex digits.  The decoder's pattern differs
    from it both ways: a six-digit colour without [#] is decoded by
    [hexToRGB] although the palette pattern rejects it, and a three-digit
    colour is accepted by the palette pattern although [hexToRGB] answers
    [null]. *)
Theorem HEX_REGEX_versus_decoder :
  (forall s,
     test HEX_REGEX s = true <->
     exists digits,
       s = String "#" digits /\
       (three_hexdigits digits = true \/ six_hexdigits digits = true)) /\
  (forall s, six_hexdigits s = true ->
     test HEX_REGEX s = false /\ hexToRGB (Str s) <> None) /\
  (forall digits, three_hexdigits digits = true ->
     test HEX_REGEX (String "#" digits) = true /\ hexToRGB (Str (String "#" digits)) = None).
Proof.
  split; [|split].
  - intros s. rewrite test_HEX_REGEX. unfold hash_colour. split.
    + destruct s as [|c digits]; [discriminate|]. intros Hs.
      apply andb_prop in Hs. destruct Hs as [Hc Hd].
      apply Ascii.eqb_eq in Hc. subst c. exists digits. split; [reflexivity|].
      apply orb_prop in Hd. exact Hd.
    + intros (digits & -> & Hd). change (Ascii.eqb "#" "#") with true. cbn [andb].
      destruct Hd as [-> | ->]; [reflexivity | apply orb_true_r].
  - intros s Hs. destruct (six_hexdigits_no_hash s Hs) as [Hwf Hh].
    rewrite test_HEX_REGEX. split; [exact Hh|].
    destruct (hexToRGB_six s Hwf) as [-> _]. discriminate.
  - intros digits Hd. rewrite test_HEX_REGEX. unfold hash_colour.
    change (Ascii.eqb "#" "#") with true. rewrite Hd. split; [reflexivity|].
    apply hexToRGB_other. apply three_not_six. exact Hd.
Qed.

(** X5. [hexToRGB] decodes a string exactly when it consists of six hex
    digits, in either case, after an optional [#]; every other string
    (empty, a lone [#], three, five, seven or eight digits, other
    characters) gives [null].  The three channels are the values of the
    three digit pairs, each between 0 and 255. *)
Theorem hexToRGB_decodes_exactly_six_digits : forall s,
  (hexToRGB (Str s) = None <-> well_formed6 s = false) /\
  (well_formed6 s = true ->
     hexToRGB (Str s) =
       Some (JS.of_Z (channel s 0), JS.of_Z (channel s 2), JS.of_Z (channel s 4)) /\
     0 <= channel s 0 <= 255 /\ 0 <= channel s 2 <= 255 /\ 0 <= channel s 4 <= 255).
Proof.
  intros s. split.
  - split.
    + intros Hn. destruct (well_formed6 s) eqn:Hwf; [|reflexivity].
      destruct (hexToRGB_six s Hwf) as [Hs _]. congruence.
    + apply hexToRGB_other.
  - intros Hwf. destruct (hexToRGB_six s Hwf) as (Hs & Hr & Hg & Hb).
    split; [exact Hs | lia].
Qed.


Lemma valid_item_cases (item : JS.value) :
  valid_item item = Normal true <->
  (exists s, item = Str s /\ hash_colour s = true) \/
  (exists fields,
     item = Object fields /\
     ToBoolean (own_property "color" fields) = true /\
     test HEX_REGEX (ToString (own_property "color" fields)) = true).
Proof.
  unfold valid_item. split.
  - destruct item as [| |b|n|s|fields]; cbn; try discriminate.
    + rewrite test_HEX_REGEX. destruct (hash_colour s) eqn:Hs; [|discriminate].
      intros _. left. exists s. auto.
    + intros Hv. right. exists fields. split; [reflexivity|].
      apply andb_prop. congruence.
  - intros [(s & -> & Hs) | (fields & -> & Hb & Ht)]; cbn.
    + rewrite test_HEX_REGEX, Hs. reflexivity.
    + rewrite Hb, Ht. reflexivity.
Qed.



Lemma normalize_item_valid (item : JS.value) :
  valid_item item = Normal true ->
  exists entry,
    normalize_item item = Normal entry /\
    entry_color entry =
      match item with Object fields => own_property "color" fields | _ => item end /\
    ToBoolean (entry_color entry) = true /\
    test HEX_REGEX (ToString (entry_color entry)) = true.
Proof.
  intros Hv. apply valid_item_cases in Hv.
  destruct Hv as [(s & -> & Hs) | (fields & -> & Hb & Ht)].
  - eexists. split; [reflexivity|]. cbn. rewrite test_HEX_REGEX.
    repeat split; try assumption.
    destruct s; [discriminate Hs | reflexivity].
  - unfold normalize_item. cbn [typeof String.eqb Get].
    change ("object" =? "object")%string with true. cbv iota.
    destruct (ToBoolean (own_property "name" fields)); eexists; (split; [reflexivity|]);
      cbn; auto.
Qed.

(** X7. A palette that passes the validator can always be shown:
    [normalizedPalette] does not throw on it, yields one entry per item in
    the same order, the entry's colour being the string itself or the
    object's [color], and each of these colours is truthy and matches
    [HEX_REGEX]. *)
Theorem normalizedPalette_of_valid_palette : forall this,
  validator (palette this) = Normal true ->
  exists entries,
    normalizedPalette this = Normal entries /\
    map entry_color entries =
      map (fun item => match item with Object fields => own_property "color" fields
                                  | _ => item end) (palette this) /\
    Forall (fun entry => ToBoolean (entry_color entry) = true /\
                         test HEX_REGEX (ToString (entry_color entry)) = true) entries.
Proof.
  intros this. unfold normalizedPalette. generalize (palette this). clear this.
  induction l as [|item l IH]; cbn; intros Hv.
  - exists []. repeat split. constructor.
  - destruct (valid_item item) as [[|]|e] eqn:Hi; try discriminate Hv.
    destruct (normalize_item_valid item Hi) as (entry & Hn & Hc & Hb & Ht).
    destruct (IH Hv) as (entries & Hns & Hcs & Hall).
    exists (entry :: entries). rewrite Hn, Hns. cbn. rewrite Hc, Hcs.
    repeat split. constructor; auto.
Qed.

Lemma normalize_throws (items : list JS.value) (item : JS.value) :
  In item items -> (exists e, normalize_item item = Throw e) ->
  exists e, normalize items = Throw e.
Proof.
  induction items as [|x items IH]; cbn; [contradiction|].
  intros [-> | Hin] Hthrow.
  - destruct Hthrow as [e ->]. exists e. reflexivity.
  - destruct (normalize_item x) as [entry|e]; [|exists e; reflexivity].
    destruct (IH Hin Hthrow) as [e ->]. exists e. reflexivity.
Qed.

(** X8. Edge cases of [normalizedPalette].  A string item is its own
    colour, but its accessible name is translated with the placeholder
    [hex] bound to [item.color], which a string does not have: all string
    items get the same name, with [hex] undefined.  An object item keeps a
    truthy [name] of its own.  A [null] or [undefined] item anywhere in
    the palette makes the whole computed property throw. *)
Theorem normalizedPalette_names_and_failures :
  (forall s,
     normalize_item (Str s) =
     Normal {| entry_color := Str s;
               entry_name := Str (t "A color with a HEX value {hex}" [("hex", Undefined)]) |}) /\
  (forall fields,
     ToBoolean (own_property "name" fields) = true ->
     normalize_item (Object fields) =
     Normal {| entry_color := own_property "color" fields;
               entry_name := own_property "name" fields |}) /\
  (forall this item,
     In item (palette this) -> item = Null \/ item = Undefined ->
     exists e, normalizedPalette this = Throw e).
Proof.
  split; [|split].
  - reflexivity.
  - intros fields Hn. unfold normalize_item. cbn [typeof Get].
    change ("object" =? "object")%string with true. cbv iota. rewrite Hn. reflexivity.
  - intros this item Hin Hitem. apply (normalize_throws _ item Hin).
    destruct Hitem as [-> | ->]; eexists; reflexivity.
Qed.

End PickerMore.

(** ** NcColorPicker: the template's wiring and what it emits *)

Section PickerTraces.
Import JS RegExp NcColorPicker Reference.
Context `{Host} `{L10n}.

Lemma typeof_string (c : JS.value) :
  (typeof c =? "string")%string = true -> exists s, c = Str s.
Proof. destruct c; cbn; try discriminate. intros _. eexists. reflexivity. Qed.

(** What [pickColor] leaves alone, and the two shapes of what it emits. *)
Lemma pickColor_frame (c : JS.value) (this : picker) :
  let this' := snd (pickColor c this) in
  value this' = value this /\ advancedFields this' = advancedFields this /\
  paletteOnly this' = paletteOnly this /\ palette this' = palette this /\
  advanced this' = advanced this /\
  (emitted this' = emitted this \/
   exists v, emitted this' = emitted this ++ [("update:value", [v]); ("input", [v])]).
Proof.
  destruct (typeof c =? "string")%string eqn:Hc.
  - destruct (typeof_string c Hc) as [s ->]. rewrite pickColor_string. cbn.
    repeat split. right. eexists. reflexivity.
  - rewrite (pickColor_other this c Hc).
    destruct (Get (currentColor this) "hex") as [v|e]; cbn; repeat split; auto.
    right. eexists. reflexivity.
Qed.

(** X9. An 'input' of the Chrome picker: the [v-model] callback has stored
    the colour object before [pickColor] reads [this.currentColor.hex], so
    for every object payload the handler cannot throw, [currentColor]
    ends as the object's own [hex] and both events carry it, whatever the
    colour was before.  A [null] or [undefined] payload makes the handler
    throw after [currentColor] was overwritten with it, and nothing is
    emitted. *)
Theorem chrome_input_emits_hex_of_payload :
  (forall this fields,
     let '(res, this') := chrome_input (Object fields) this in
     res = Normal tt /\
     currentColor this' = own_property "hex" fields /\
     emitted this' =
       emitted this ++ [("update:value", [own_property "hex" fields]);
                        ("input", [own_property "hex" fields])]) /\
  (forall this c,
     c = Null \/ c = Undefined ->
     let '(res, this') := chrome_input c this in
     (exists e, res = Throw e) /\ currentColor this' = c /\ emitted this' = emitted this).
Proof.
  split.
  - intros this fields. unfold chrome_input, bind, set_currentColor.
    rewrite pickColor_other by reflexivity. cbn. auto.
  - intros this c [-> | ->]; unfold chrome_input, bind, set_currentColor;
      rewrite pickColor_other by reflexivity; cbn; (split; [eexists; reflexivity | auto]).
Qed.

(** X10. From the validator to the check mark.  When a string item that
    the palette validator accepts is picked, [currentColor] becomes that
    string; it has seven or four characters, and the contrast colour of
    its check mark is black or white in the first case and cannot be
    computed (a [TypeError]) in the second. *)
Theorem picked_palette_colour_contrast : forall this s,
  valid_item (Str s) = Normal true ->
  let this' := snd (pickColor (Str s) this) in
  currentColor this' = Str s /\
  ((String.length s = 7%nat /\
    (contrastColor this' = Normal "#000000" \/ contrastColor this' = Normal "#FFFFFF")) \/
   (String.length s = 4%nat /\
    contrastColor this' = Throw (TypeError "null is not iterable"))).
Proof.
  intros this s Hv this'.
  assert (Hc : currentColor this' = Str s).
  { unfold this'. rewrite pickColor_string. reflexivity. }
  split; [exact Hc|].
  apply valid_item_cases in Hv.
  destruct Hv as [(s' & Hs' & Hh) | (fields & Hf & _)]; [|discriminate Hf].
  injection Hs' as <-. unfold hash_colour in Hh.
  destruct s as [|c digits]; [discriminate Hh|].
  apply andb_prop in Hh. destruct Hh as [Hhash Hd].
  apply Ascii.eqb_eq in Hhash. subst c.
  apply orb_prop in Hd. destruct Hd as [H3 | H6].
  - right. split.
    + unfold three_hexdigits in H3.
      destruct digits as [|c1 [|c2 [|c3 [|c4 r]]]]; try discriminate H3. reflexivity.
    + unfold contrastColor. rewrite Hc.
      rewrite (calculateLuma_other (String "#" digits)); [reflexivity|].
      apply three_not_six. exact H3.
  - left. split.
    + unfold six_hexdigits in H6.
      destruct digits as [|c1 [|c2 [|c3 [|c4 [|c5 [|c6 [|c7 r]]]]]]]; try discriminate H6.
      reflexivity.
    + rewrite (contrastColor_six this' (String "#" digits) Hc H6).
      destruct Qlt_le_dec; auto.
Qed.

Lemma perform_frame (a : action) (this : picker) :
  advancedFields (perform this a) = advancedFields this /\
  paletteOnly (perform this a) = paletteOnly this /\
  palette (perform this a) = palette this /\
  ((forall c, a <> ValueProp c) -> value (perform this a) = value this).
Proof.
  unfold perform.
  destruct a as [i|c| | | | |c]; cbn [handler].
  - destruct (normalizedPalette this) as [entries|e]; [|cbn; auto].
    destruct (nth_error entries i) as [entry|]; [|cbn; auto].
    destruct (pickColor_frame (entry_color entry) this) as (Hv & Ha & Hp & Hl & _).
    auto.
  - unfold chrome_input, bind, set_currentColor.
    match goal with |- context [pickColor c ?x] =>
      destruct (pickColor_frame c x) as (Hv & Ha & Hp & Hl & _) end.
    cbn in *. auto.
  - cbn. auto.
  - cbn. auto.
  - cbn. auto.
  - cbn. auto.
  - cbn. repeat split. intros Hne. exfalso. apply (Hne c). reflexivity.
Qed.

(** X11. The component never writes its props: whatever the template's
    handlers are run with and in whatever order, [palette],
    [advancedFields] and [paletteOnly] stay as they were given, and
    [value] changes only when the parent passes a new one. *)
Theorem props_are_never_written : forall actions this,
  let this' := fold_left perform actions this in
  advancedFields this' = advancedFields this /\
  paletteOnly this' = paletteOnly this /\
  palette this' = palette this /\
  ((forall c, ~ In (ValueProp c) actions) -> value this' = value this).
Proof.
  induction actions as [|a actions IH]; intros this; cbn.
  - auto.
  - destruct (IH (perform this a)) as (Ha & Hp & Hl & Hv).
    destruct (perform_frame a this) as (Ha' & Hp' & Hl' & Hv').
    repeat split; try congruence.
    intros Hno. rewrite Hv, Hv'; [reflexivity | |].
    + intros c ->. apply (Hno c). left. reflexivity.
    + intros c Hin. apply (Hno c). right. exact Hin.
Qed.

Lemma perform_bursts (a : action) (this : picker) :
  bursts (emitted this) -> bursts (emitted (perform this a)).
Proof.
  intros Hb. unfold perform.
  destruct a as [i|c| | | | |c]; cbn [handler].
  - destruct (normalizedPalette this) as [entries|e]; [|exact Hb].
    destruct (nth_error entries i) as [entry|]; [|exact Hb].
    destruct (pickColor_frame (entry_color entry) this) as (_ & _ & _ & _ & _ & [-> | [v ->]]);
      [exact Hb | apply bursts_pick; exact Hb].
  - unfold chrome_input, bind, set_currentColor.
    match goal with |- context [pickColor c ?x] =>
      destruct (pickColor_frame c x) as (_ & _ & _ & _ & _ & [He | [v He]]) end;
      cbn in *; rewrite He; [exact Hb | apply bursts_pick; exact Hb].
  - exact Hb.
  - exact Hb.
  - cbn. rewrite <- !app_assoc. cbn. apply bursts_confirm. exact Hb.
  - cbn. rewrite <- !app_assoc. cbn. apply bursts_close. exact Hb.
  - exact Hb.
Qed.

(** X12. What a parent can hear.  Whatever handlers run, in whatever
    order and with whatever payloads, the events emitted since creation
    are a sequence of three kinds of bursts only: 'update:value' and
    'input' with one and the same payload; 'submit', 'close' and
    'update:open' with [false]; or 'close' and 'update:open' with [false].
    In particular 'update:open' never carries [true] and 'submit' is
    always followed by the closing pair. *)
Theorem emitted_events_come_in_bursts : forall v af po pal actions,
  bursts (emitted (fold_left perform actions (create v af po pal))).
Proof.
  intros v af po pal actions.
  assert (Hgen : forall this, bursts (emitted this) ->
                              bursts (emitted (fold_left perform actions this))).
  { induction actions as [|a actions IH]; intros this Hb; cbn; [exact Hb|].
    apply IH. apply perform_bursts. exact Hb. }
  apply Hgen. constructor.
Qed.

Lemma template_palette_only (this : picker) (v : view) :
  paletteOnly this = true -> advanced this = false -> template this = Some v ->
  chrome v = false /\ back v = false /\ more v = false /\ choose v = false.
Proof.
  unfold template. intros Hp Ha. rewrite Ha, Hp.
  destruct (normalizedPalette this) as [entries|e]; [|discriminate].
  intros Hv. injection Hv as <-. cbn. auto.
Qed.

(** X13. [paletteOnly] holds what it promises.  Take a picker that has
    [paletteOnly] and shows the palette when it is first rendered.
    Whatever the user then does with the controls that are on the page,
    those left over from an earlier render after a render that threw
    included, and whatever values the parent passes, the advanced picker
    is never shown ([advanced] stays false), the page never has the
    Chrome picker or one of the back, more and choose buttons, and no
    'submit' is emitted. *)
Theorem palette_only_never_advanced : forall this0 this v,
  paletteOnly this0 = true -> advanced this0 = false ->
  shown this0 this v ->
  advanced this = false /\
  (chrome v = false /\ back v = false /\ more v = false /\ choose v = false) /\
  (forall e, In e (emitted this) -> fst e = "submit" -> In e (emitted this0)).
Proof.
  intros this0 this v Hp0 Ha0 Hs.
  assert (Hinv : paletteOnly this = true /\ advanced this = false /\
                 (chrome v = false /\ back v = false /\ more v = false /\ choose v = false) /\
                 (forall e, In e (emitted this) -> fst e = "submit" -> In e (emitted this0))).
  { induction Hs as [v [-> | Ht] | this v this' v' Hs IH Hui].
    - cbn. auto 10.
    - repeat split; auto. 1-4: apply (template_palette_only this0 v Hp0 Ha0 Ht).
    - destruct IH as (Hp & Ha & Hv & He).
      assert (Hstep : paletteOnly this' = true /\ advanced this' = false /\
                forall e, In e (emitted this') -> fst e = "submit" -> In e (emitted this0)).
      { inversion Hui as [t1 v1 color v1' Hin Hr | t1 v1 a v1' Hpr Hr]; subst.
        - destruct (pickColor_frame color this) as (_ & _ & Hp' & _ & Ha' & [Hem | [x Hem]]);
            cbn in *; rewrite Hp', Ha', Hem; repeat split; auto.
          intros e Hin' Hsub. apply in_app_or in Hin'. destruct Hin' as [Hin' | Hin'];
            [apply He; assumption|].
          cbn in Hin'. destruct Hin' as [<- | [<- | []]]; discriminate Hsub.
        - destruct Hv as (Hc & Hb & Hm & Hch).
          destruct a as [i|c| | | | |c]; cbn [present] in Hpr; try congruence.
          + unfold perform. cbn. repeat split; auto.
            intros e Hin' Hsub. rewrite <- app_assoc in Hin'.
            apply in_app_or in Hin'. destruct Hin' as [Hin' | Hin'];
              [apply He; assumption|].
            cbn in Hin'. destruct Hin' as [<- | [<- | []]]; discriminate Hsub.
          + unfold perform. cbn. auto. }
      destruct Hstep as (Hp' & Ha' & He').
      repeat split; auto;
        (inversion Hui as [t1 v1 color v1' Hin [-> | Ht] | t1 v1 a v1' Hpr [-> | Ht]]; subst;
         [apply Hv | apply (template_palette_only _ _ Hp' Ha' Ht)
         | apply Hv | apply (template_palette_only _ _ Hp' Ha' Ht)]). }
  destruct Hinv as (_ & Ha & Hv & He). auto.
Qed.

(** X14. [pickColor] outside the Chrome picker.  Called with something
    that is not a string while [currentColor] is a string, it reads the
    [hex] of that string, which does not exist: [currentColor] becomes
    [undefined] and both events carry [undefined].  A second such call
    then throws on [undefined.hex], and a throwing call changes nothing
    and emits nothing. *)
Theorem pickColor_without_colour_object : forall this s c1 c2,
  (typeof c1 =? "string")%string = false ->
  (typeof c2 =? "string")%string = false ->
  currentColor this = Str s ->
  let '(res1, this1) := pickColor c1 this in
  res1 = Normal tt /\
  currentColor this1 = Undefined /\
  emitted this1 = emitted this ++ [("update:value", [Undefined]); ("input", [Undefined])] /\
  pickColor c2 this1 = (Throw (TypeError "Cannot read properties of undefined"), this1).
Proof.
  intros this s c1 c2 H1 H2 Hc.
  rewrite (pickColor_other this c1 H1), Hc. cbn [Get].
  repeat split. rewrite (pickColor_other _ c2 H2). reflexivity.
Qed.

(** X15. Choosing submits what was picked last.  After an 'input' of the
    Chrome picker with a colour object, a click on the choose button emits
    'submit' with the [hex] of that object, then 'close' and 'update:open'
    with [false], and the picker is back on the palette with that [hex]
    as its current colour. *)
Theorem choose_submits_last_picked : forall this fields,
  let this1 := perform this (ChromeInput (Object fields)) in
  let this2 := perform this1 ClickChoose in
  emitted this2 =
    emitted this ++
    [("update:value", [own_property "hex" fields]); ("input", [own_property "hex" fields]);
     ("submit", [own_property "hex" fields]); ("close", []); ("update:open", [Bool false])] /\
  currentColor this2 = own_property "hex" fields /\
  advanced this2 = false.
Proof.
  intros this fields. unfold perform. cbn [handler].
  unfold chrome_input, bind, set_currentColor.
  rewrite pickColor_other by reflexivity. cbn.
  rewrite <- !app_assoc. cbn. auto.
Qed.

End PickerTraces.

(** ** NcDialog: navigation labels and closing *)

Section DialogMore.
Import JS NcDialog.

(** X16. The navigation element always gets exactly one accessible label:
    [aria-label] when the [navigationAriaLabel] prop is not empty, and
    otherwise [aria-labelledby], which is the [navigationAriaLabelledby]
    prop or, when that is empty, the generated id of the dialog name.
    With a generated id that is not empty, the label that is set is never
    the empty string. *)
Theorem navigation_has_exactly_one_label : forall d,
  (navigationAriaLabelAttr d = None <-> navigationAriaLabelledbyAttr d <> None) /\
  (navigationAriaLabel d <> "" ->
     navigationAriaLabelAttr d = Some (navigationAriaLabel d)) /\
  (navigationAriaLabel d = "" -> navigationAriaLabelledby d <> "" ->
     navigationAriaLabelledbyAttr d = Some (navigationAriaLabelledby d)) /\
  (navigationAriaLabel d = "" -> navigationAriaLabelledby d = "" ->
     navigationAriaLabelledbyAttr d = Some (navigationId d)) /\
  (navigationId d <> "" ->
     forall label,
       navigationAriaLabelAttr d = Some label \/ navigationAriaLabelledbyAttr d = Some label ->
       label <> "").
Proof.
  intros d. unfold navigationAriaLabelAttr, navigationAriaLabelledbyAttr.
  destruct (String.eqb_spec (navigationAriaLabel d) "") as [El | El];
    destruct (String.eqb_spec (navigationAriaLabelledby d) "") as [Eb | Eb]; cbn;
    repeat split; intros; try congruence;
    repeat match goal with
           | Hor : _ \/ _ |- _ => destruct Hor
           end; congruence.
Qed.

Lemma clicks (n : nat) : forall d,
  let d1 := fold_left react (repeat ButtonClick n) d in
  emitted d1 = emitted d ++ repeat ("closing", []) n /\
  pending d1 = (pending d + n)%nat /\
  open d1 = open d /\
  (0 < n -> showModal d1 = false)%nat.
Proof.
  induction n as [|n IH]; intros d; cbn [repeat fold_left].
  - cbn. rewrite app_nil_r. repeat split; lia.
  - destruct (IH (react d ButtonClick)) as (He & Hp & Ho & Hs).
    cbn zeta. rewrite He, Hp, Ho. cbn. rewrite !app_nil_r, <- app_assoc. cbn.
    repeat split; try lia.
    intros _. destruct n as [|n]; [reflexivity | apply Hs; lia].
Qed.

Lemma timeouts (n : nat) : forall d,
  (n <= pending d)%nat ->
  let d2 := fold_left react (repeat Timeout n) d in
  emitted d2 = emitted d ++ repeat ("update:open", [Bool false]) n /\
  pending d2 = (pending d - n)%nat /\
  (0 < n -> showModal d2 = true)%nat.
Proof.
  induction n as [|n IH]; intros d Hn; cbn [repeat fold_left].
  - cbn. rewrite app_nil_r. repeat split; lia.
  - assert (Hd : exists k, pending d = S k) by (destruct (pending d); [lia | eauto]).
    destruct Hd as [k Hk].
    assert (Hr : react d Timeout =
                 handleClosed (update d (showModal d) k [])).
    { cbn. unfold timeout. rewrite Hk. reflexivity. }
    destruct (IH (react d Timeout)) as (He & Hp & Hs).
    { rewrite Hr. cbn. lia. }
    cbn zeta. rewrite He, Hp, Hr. cbn. rewrite !app_nil_r, <- app_assoc. cbn.
    repeat split; try lia.
    intros _. destruct n as [|n]; [reflexivity | rewrite Hr in Hs; apply Hs; lia].
Qed.

(** X17. Clicks on dialog buttons are not guarded against repetition.
    [n] clicks in a row emit 'closing' [n] times, hide the modal and
    leave [n] more timeouts pending; when these [n] timeouts have expired,
    'update:open' with [false] has been emitted [n] times, after all the
    'closing' events, the number of pending timeouts is what it was, and
    [showModal] is true again. *)
Theorem n_clicks_close_n_times : forall n d,
  let d1 := fold_left react (repeat ButtonClick n) d in
  let d2 := fold_left react (repeat Timeout n) d1 in
  emitted d1 = emitted d ++ repeat ("closing", []) n /\
  pending d1 = (pending d + n)%nat /\
  ((0 < n)%nat -> show d1 = false) /\
  emitted d2 =
    emitted d ++ repeat ("closing", []) n ++ repeat ("update:open", [Bool false]) n /\
  pending d2 = pending d /\
  ((0 < n)%nat -> showModal d2 = true).
Proof.
  intros n d d1 d2.
  destruct (clicks n d) as (He1 & Hp1 & Ho1 & Hs1). fold d1 in He1, Hp1, Ho1, Hs1.
  destruct (timeouts n d1) as (He2 & Hp2 & Hs2); [lia|]. fold d2 in He2, Hp2, Hs2.
  repeat split; try assumption.
  - intros Hn. unfold show. rewrite (Hs1 Hn). apply andb_false_r.
  - rewrite He2, He1, <- app_assoc. reflexivity.
  - rewrite Hp2, Hp1. lia.
Qed.

Lemma react_declared (o : occurrence) (d : dialog) :
  Forall (fun e => e = ("closing", []) \/ e = ("update:open", [Bool false])) (emitted d) ->
  Forall (fun e => e = ("closing", []) \/ e = ("update:open", [Bool false]))
         (emitted (react d o)).
Proof.
  intros Hd. destruct o; cbn.
  - rewrite app_nil_r. apply Forall_app. split; [exact Hd|]. constructor; [auto | constructor].
  - unfold timeout. destruct (pending d); [exact Hd|]. cbn. rewrite app_nil_r.
    apply Forall_app. split; [exact Hd|]. constructor; [auto | constructor].
  - apply Forall_app. split; [exact Hd|]. constructor; [auto | constructor].
  - apply Forall_app. split; [exact Hd|]. constructor; [auto | constructor].
Qed.

(** X18. The dialog emits what it declares and nothing else: whatever
    happens to it after [setup], every event it has emitted is 'closing'
    without payload or 'update:open' with [false]; it never announces
    that it opened.  For any dialog with no timeout pending, an expiring
    timeout has no effect. *)
Theorem dialog_emits_closing_or_closed :
  (forall isOpen label labelledby id occurrences,
     Forall (fun e => e = ("closing", []) \/ e = ("update:open", [Bool false]))
            (emitted (fold_left react occurrences (mount isOpen label labelledby id)))) /\
  (forall d, pending d = 0%nat -> react d Timeout = d).
Proof.
  split.
  - intros isOpen label labelledby id occurrences.
    assert (Hgen : forall d,
      Forall (fun e => e = ("closing", []) \/ e = ("update:open", [Bool false])) (emitted d) ->
      Forall (fun e => e = ("closing", []) \/ e = ("update:open", [Bool false]))
             (emitted (fold_left react occurrences d))).
    { induction occurrences as [|o os IH]; intros d Hd; cbn; [exact Hd|].
      apply IH. apply react_declared. exact Hd. }
    apply Hgen. constructor.
  - intros d Hp. cbn. unfold timeout. rewrite Hp. reflexivity.
Qed.

End DialogMore.

(** ** NcColorPicker: the range of the luminance *)

Section LumaRange.
Import JS RegExp NcColorPicker Reference.
Context `{Host}.

Lemma range_table : all3 in_unit_range channels = true.
Proof. vm_compute. reflexivity. Qed.

(** X19. For every six-digit colour [calculateLuma] returns a number, and
    this number, as computed in binary64, is at least 0 and strictly
    below 1: it is never NaN, and rounding keeps it below 1 even for
    white. *)
Theorem calculateLuma_in_unit_range : forall s,
  well_formed6 s = true ->
  exists luma,
    calculateLuma (Str s) = Normal luma /\
    (0 <=? luma)%float = true /\ (luma <? 1)%float = true.
Proof.
  intros s Hwf. rewrite (calculateLuma_six s Hwf). eexists. split; [reflexivity|].
  destruct (hexToRGB_six s Hwf) as (_ & Hr & Hg & Hb).
  pose proof (all3_spec in_unit_range channels range_table _ _ _
                (in_channels _ Hr) (in_channels _ Hg) (in_channels _ Hb)) as T.
  unfold in_unit_range in T. apply andb_prop in T. exact T.
Qed.

Lemma contrastColor_black_iff (this : picker) (s : string) :
  currentColor this = Str s -> well_formed6 s = true ->
  (contrastColor this = Normal "#000000" <->
   637500 < 1063 * channel s 0 + 3576 * channel s 2 + 361 * channel s 4) /\
  (contrastColor this = Normal "#FFFFFF" <->
   1063 * channel s 0 + 3576 * channel s 2 + 361 * channel s 4 <= 637500).
Proof.
  intros Hc Hwf. rewrite (contrastColor_six this s Hc Hwf).
  destruct Qlt_le_dec as [Hlt | Hle].
  - apply luma_above_half in Hlt. split; split; intros Hx; try reflexivity; try lia.
    discriminate Hx.
  - assert (Hn : ~ 637500 < 1063 * channel s 0 + 3576 * channel s 2 + 361 * channel s 4).
    { intros Hx. apply luma_above_half in Hx. exact (Qle_not_lt _ _ Hle Hx). }
    split; split; intros Hx; try reflexivity; try lia. discriminate Hx.
Qed.

(** X20. The contrast colour in whole numbers, and its monotonicity.  For
    a six-digit colour with channels R, G, B the check mark is black
    exactly when [1063 R + 3576 G + 361 B > 637500] and white otherwise
    (the binary64 comparison of the source never decides differently).
    Hence a colour that is at least as bright in every channel as a
    colour with a black check mark has a black check mark too. *)
Theorem contrastColor_threshold_and_monotone : forall this1 this2 s1 s2,
  currentColor this1 = Str s1 -> well_formed6 s1 = true ->
  currentColor this2 = Str s2 -> well_formed6 s2 = true ->
  (contrastColor this1 = Normal "#000000" <->
   637500 < 1063 * channel s1 0 + 3576 * channel s1 2 + 361 * channel s1 4) /\
  (contrastColor this1 = Normal "#FFFFFF" <->
   1063 * channel s1 0 + 3576 * channel s1 2 + 361 * channel s1 4 <= 637500) /\
  (channel s1 0 <= channel s2 0 -> channel s1 2 <= channel s2 2 ->
   channel s1 4 <= channel s2 4 ->
   contrastColor this1 = Normal "#000000" -> contrastColor this2 = Normal "#000000").
Proof.
  intros this1 this2 s1 s2 Hc1 Hw1 Hc2 Hw2.
  destruct (contrastColor_black_iff this1 s1 Hc1 Hw1) as [Hb1 Hwh1].
  destruct (contrastColor_black_iff this2 s2 Hc2 Hw2) as [Hb2 _].
  split; [exact Hb1|]. split; [exact Hwh1|].
  intros Hr Hg Hb Hblack. apply Hb2. apply Hb1 in Hblack. lia.
Qed.

End LumaRange.

(** ** Closed instances of the further properties *)

Section MoreInstances.
Import JS RegExp Reference.


Import NcColorPicker.

Lemma HEX_REGEX_versus_decoder_witness :
  test HEX_REGEX "0082c9" = false /\ @hexToRGB any_host (Str "0082c9") <> None.
Proof.
  exact (proj1 (proj2 (@HEX_REGEX_versus_decoder any_host)) "0082c9" eq_refl).
Defined.

Lemma hexToRGB_decodes_exactly_six_digits_witness :
  @hexToRGB any_host (Str "#0082C9") = Some (JS.of_Z 0, JS.of_Z 130, JS.of_Z 201) /\
  0 <= 0 <= 255 /\ 0 <= 130 <= 255 /\ 0 <= 201 <= 255.
Proof.
  exact (proj2 (@hexToRGB_decodes_exactly_six_digits any_host "#0082C9") eq_refl).
Defined.


Lemma normalizedPalette_of_valid_palette_witness :
  let this := create (Str "#fff") false false
                [Str "#fff"; Object [("color", Str "#0082C9"); ("name", Str "blue")]] in
  exists entries,
    @normalizedPalette any_l10n this = Normal entries /\
    map entry_color entries =
      map (fun item => match item with Object fields => own_property "color" fields
                                  | _ => item end) (palette this) /\
    Forall (fun entry => ToBoolean (entry_color entry) = true /\
                         test HEX_REGEX (@ToString any_host (entry_color entry)) = true)
           entries.
Proof.
  exact (@normalizedPalette_of_valid_palette any_host any_l10n
           (create (Str "#fff") false false
              [Str "#fff"; Object [("color", Str "#0082C9"); ("name", Str "blue")]])
           eq_refl).
Defined.

Lemma normalizedPalette_names_and_failures_witness :
  exists e,
    @normalizedPalette any_l10n (create (Str "#fff") false false [Str "#fff"; Null]) = Throw e.
Proof.
  apply (proj2 (proj2 (@normalizedPalette_names_and_failures any_l10n))
           (create (Str "#fff") false false [Str "#fff"; Null]) Null).
  - right. left. reflexivity.
  - left. reflexivity.
Defined.

Lemma chrome_input_emits_hex_of_payload_witness :
  let '(res, this') := chrome_input Null (create (Str "#fff") false false []) in
  (exists e, res = Throw e) /\ currentColor this' = Null /\ emitted this' = [].
Proof.
  exact (proj2 chrome_input_emits_hex_of_payload
           (create (Str "#fff") false false []) Null (or_introl eq_refl)).
Defined.

Lemma picked_palette_colour_contrast_witness :
  let this' := snd (pickColor (Str "#FFED00") (create (Str "#fff") false false [])) in
  currentColor this' = Str "#FFED00" /\
  ((String.length "#FFED00" = 7%nat /\
    (@contrastColor any_host this' = Normal "#000000" \/
     @contrastColor any_host this' = Normal "#FFFFFF")) \/
   (String.length "#FFED00" = 4%nat /\
    @contrastColor any_host this' = Throw (TypeError "null is not iterable"))).
Proof.
  exact (@picked_palette_colour_contrast any_host
           (create (Str "#fff") false false []) "#FFED00" eq_refl).
Defined.

Lemma pickColor_without_colour_object_witness :
  let '(res1, this1) := pickColor (Number 1) (create (Str "#fff") false false []) in
  res1 = Normal tt /\
  currentColor this1 = Undefined /\
  emitted this1 = [("update:value", [Undefined]); ("input", [Undefined])] /\
  pickColor Null this1 = (Throw (TypeError "Cannot read properties of undefined"), this1).
Proof.
  exact (pickColor_without_colour_object (create (Str "#fff") false false [])
           "#fff" (Number 1) Null eq_refl eq_refl eq_refl).
Defined.

Lemma props_are_never_written_witness :
  value (fold_left (@perform any_l10n)
           [ClickMore; ChromeInput (Object [("hex", Str "#0082c9")]); ClickChoose]
           (create (Str "#fff") false false [])) = Str "#fff".
Proof.
  apply (proj2 (proj2 (proj2 (@props_are_never_written any_l10n
           [ClickMore; ChromeInput (Object [("hex", Str "#0082c9")]); ClickChoose]
           (create (Str "#fff") false false []))))).
  intros c [Hc | [Hc | [Hc | []]]]; discriminate Hc.
Defined.

Lemma palette_only_never_advanced_witness :
  let this0 := create (Str "#fff") false true [Str "#0082c9"] in
  advanced (snd (pickColor (Str "#0082c9") this0)) = false.
Proof.
  cbv zeta.
  eapply (fun v Hs =>
            proj1 (@palette_only_never_advanced any_l10n
                     (create (Str "#fff") false true [Str "#0082c9"])
                     (snd (pickColor (Str "#0082c9")
                             (create (Str "#fff") false true [Str "#0082c9"])))
                     v eq_refl eq_refl Hs)).
  eapply shown_next.
  - apply shown_first. right. reflexivity.
  - apply ui_circle; [left; reflexivity | left; reflexivity].
Defined.

Lemma contrastColor_threshold_and_monotone_witness :
  @contrastColor any_host (create (Str "#FFFFFF") false false []) = Normal "#000000".
Proof.
  apply (proj2 (proj2 (@contrastColor_threshold_and_monotone any_host
           (create (Str "#FFED00") false false []) (create (Str "#FFFFFF") false false [])
           "#FFED00" "#FFFFFF" eq_refl eq_refl eq_refl eq_refl))).
  - vm_compute. discriminate.
  - vm_compute. discriminate.
  - vm_compute. discriminate.
  - reflexivity.
Defined.

Lemma calculateLuma_in_unit_range_witness :
  exists luma,
    @calculateLuma any_host (Str "#FFFFFF") = Normal luma /\
    (0 <=? luma)%float = true /\ (luma <? 1)%float = true.
Proof.
  exact (@calculateLuma_in_unit_range any_host "#FFFFFF" eq_refl).
Defined.

End MoreInstances.

Section DialogInstances.
Import JS NcDialog.

Lemma navigation_has_exactly_one_label_witness :
  navigationAriaLabelledbyAttr (mount true "" "" "nav-1") = Some "nav-1" /\
  navigationAriaLabelAttr (mount true "Sections" "heading-2" "nav-1") = Some "Sections".
Proof.
  split.
  - exact (proj1 (proj2 (proj2 (proj2
             (navigation_has_exactly_one_label (mount true "" "" "nav-1")))))
             eq_refl eq_refl).
  - apply (proj1 (proj2
             (navigation_has_exactly_one_label (mount true "Sections" "heading-2" "nav-1")))).
    discriminate.
Defined.

Lemma dialog_emits_closing_or_closed_witness :
  let d := react (react (mount true "" "" "nav-1") ButtonClick) Timeout in
  react d Timeout = d.
Proof.
  exact (proj2 dialog_emits_closing_or_closed
           (react (react (mount true "" "" "nav-1") ButtonClick) Timeout) eq_refl).
Defined.

Lemma n_clicks_close_n_times_witness :
  showModal (fold_left react (repeat Timeout 2)
               (fold_left react (repeat ButtonClick 2) (mount true "" "" "nav-1"))) = true /\
  show (fold_left react (repeat ButtonClick 2) (mount true "" "" "nav-1")) = false.
Proof.
  split.
  - apply (proj2 (proj2 (proj2 (proj2 (proj2
             (n_clicks_close_n_times 2 (mount true "" "" "nav-1"))))))). lia.
  - apply (proj1 (proj2 (proj2
             (n_clicks_close_n_times 2 (mount true "" "" "nav-1"))))). lia.
Defined.

End DialogInstances.
